(** * Offline e-cash driver (driver.js): acceptance and double-spend arbitration

    A shallow embedding of [src/driver.js].  JavaScript strings are
    [string]s, Buffers are lists of bytes held in [Z], exceptions and the
    calls to the outside world (signature verification, hashing, the random
    draw, the coin's share accessor, [console.log]) are recorded by a small
    trace-and-exception monad.

    [driver.js] imports [Coin], [COIN_RIS_LENGTH], [IDENT_STR], [BANK_STR]
    from [coin.js], [hash] and [randInt] from [utils.js] and the
    blind-signature package; none of these is part of the sources, so they
    are variables of the section below. *)

From Stdlib Require Import String Ascii List ZArith Lia Bool PeanoNat.
Import ListNotations.

Local Open Scope string_scope.
Local Open Scope list_scope.

(** ** JavaScript values and completions *)

(** A Buffer: a sequence of bytes (each in [0, 256)). *)
Definition Buffer := list Z.

#[warnings="-register-all"]
Inductive value : Type :=
| VUndefined
| VString (s : string)
| VBuffer (b : Buffer)
| VArray (elems : list value)
| VObject (props : list (string * value)).

(** [new Error(msg)] as thrown by the program itself, and the [TypeError]
    the runtime raises when a property of [undefined] is read. *)
Inductive error : Type :=
| Error (message : string)
| TypeError (message : string).

Inductive completion (A : Type) : Type :=
| Return (a : A)
| Throw (e : error).
Arguments Return {A} a.
Arguments Throw {A} e.

(** Calls that leave the function, in program order. *)
Inductive event : Type :=
| Verify (unblinded message N E : string) (* blindSignatures.verify *)
| RandInt (range : nat)                   (* utils.randInt *)
| GetRis (isLeft : bool) (i : nat)        (* coin.getRis *)
| Hash (ris : Buffer)                     (* utils.hash *)
| Log (line : string).                    (* console.log *)

(** ** The trace-and-exception monad *)

Definition M (A : Type) : Type := (list event * completion A)%type.

Definition ret {A} (a : A) : M A := ([], Return a).

Definition throw {A} (e : error) : M A := ([], Throw e).

Definition emit (ev : event) : M unit := ([ev], Return tt).

Definition lift {A} (c : completion A) : M A := ([], c).

Definition bind {A B} (m : M A) (f : A -> M B) : M B :=
  match m with
  | (t, Throw e) => (t, Throw e)
  | (t, Return a) => let (t', c) := f a in (t ++ t', c)
  end.

Notation "x <- m ;; k" := (bind m (fun x => k))
  (at level 61, m at next level, right associativity).
Notation "m ;;; k" := (bind m (fun _ => k))
  (at level 61, right associativity).

Definition trace {A} (m : M A) : list event := fst m.
Definition outcome {A} (m : M A) : completion A := snd m.

(** ** Strings *)

(** [s.split(sep)] for a one-character separator: never empty. *)
Fixpoint split (sep : ascii) (s : string) : list string :=
  match s with
  | EmptyString => [EmptyString]
  | String c s' =>
      if Ascii.eqb c sep then EmptyString :: split sep s'
      else match split sep s' with
           | f :: fs => String c f :: fs
           | [] => [String c EmptyString]
           end
  end.

(** [`${x}`] for a value that may be [undefined]. *)
Definition show (x : option string) : string :=
  match x with
  | Some s => s
  | None => "undefined"
  end.

(** [a !== b] on values that are strings or [undefined]. *)
Definition strict_neq (a b : option string) : bool :=
  match a, b with
  | Some x, Some y => negb (String.eqb x y)
  | None, None => false
  | _, _ => true
  end.

(** [s.startsWith(p)]. *)
Definition startsWith (s p : string) : bool := String.prefix p s.

(** Whether a character occurs in a string. *)
Fixpoint occurs (c : ascii) (s : string) : bool :=
  match s with
  | EmptyString => false
  | String d s' => Ascii.eqb d c || occurs c s'
  end.

(** ** Buffers *)

(** The inner loop of [determineCheater]:
    [xorBuf[j] = part1[j] ^ part2[j]] for [j < part1.length]; a missing
    [part2[j]] is [undefined], which [^] reads as 0, and the store keeps the
    low eight bits. *)
Fixpoint byteWiseXor (part1 part2 : Buffer) : Buffer :=
  match part1 with
  | [] => []
  | a :: p1 => (Z.lxor a (hd 0 part2) mod 256)%Z :: byteWiseXor p1 (tl part2)
  end.

(** ** The coin object *)

(** Modelled from the spec: the class [Coin] of [coin.js] is not among the
    sources.  The record has what [driver.js] reads from a coin: the fields
    [signature], [n], [e], [guid], the canonical string returned by
    [toString()], and the share accessor [getRis(isLeft, i)] (the
    specification's [getShare(side, i)]). *)
Record Coin : Type := {
  signature : string;
  n : string;
  e : string;
  guid : string;
  toString : string;
  getRis : bool -> nat -> Buffer
}.

Section Driver.

(** Constants imported from [coin.js]. *)
Variable COIN_RIS_LENGTH : nat.
Variable IDENT_STR : string.
Variable BANK_STR : string.

(** [blindSignatures.verify({unblinded, message, N, E})]. *)
Variable verify : string -> string -> string -> string -> bool.
(** [utils.hash]. *)
Variable hash : Buffer -> string.
(** [Buffer.prototype.toString()]: the text a Buffer decodes to. *)
Variable bufferToString : Buffer -> string.

(** *** parseCoin (lines 34-43) *)

Definition parseCoin (s : string) : completion (list string * list string) :=
  let fields := split "-" s in
  let cnst := nth_error fields 0 in
  let leftHashes := nth_error fields 3 in
  let rightHashes := nth_error fields 4 in
  if strict_neq cnst (Some BANK_STR) then
    Throw (Error ("Invalid identity string: " ++ show cnst
                  ++ " received, but " ++ BANK_STR ++ " expected"))
  else
    match leftHashes with
    | None => Throw (TypeError "Cannot read properties of undefined (reading 'split')")
    | Some leftHashes =>
        let lh := split "," leftHashes in
        match rightHashes with
        | None => Throw (TypeError "Cannot read properties of undefined (reading 'split')")
        | Some rightHashes =>
            let rh := split "," rightHashes in
            Return (lh, rh)
        end
    end.

(** *** acceptCoin (lines 53-96) *)

(** Line 79: the commitment the hash of share [i] is compared with,
    [undefined] when the list is too short. *)
Definition expected_hash (isLeft : bool) (leftHashes rightHashes : list string)
    (i : nat) : option string :=
  if isLeft then nth_error leftHashes i else nth_error rightHashes i.

(** The loop of lines 75-85, [remaining] iterations from index [i] on. *)
Fixpoint accept_loop (coin : Coin) (isLeft : bool)
    (leftHashes rightHashes : list string)
    (remaining i : nat) (selectedHalf : list Buffer) : M (list Buffer) :=
  match remaining with
  | O => ret selectedHalf
  | S remaining' =>
      emit (GetRis isLeft i) ;;;
      let ris := getRis coin isLeft i in
      emit (Hash ris) ;;;
      let hash := hash ris in
      let expected := expected_hash isLeft leftHashes rightHashes i in
      if strict_neq (Some hash) expected then
        throw (Error "Hash mismatch, coin tampered.")
      else
        accept_loop coin isLeft leftHashes rightHashes
          remaining' (S i) (selectedHalf ++ [ris])
  end.

(** The function declared inside [acceptCoin] (lines 55-88).  [r] is the
    number [utils.randInt(2)] returns in this call. *)
Definition acceptCoin_nested (coin : Coin) (r : nat) : M (list Buffer) :=
  emit (Verify (signature coin) (toString coin) (n coin) (e coin)) ;;;
  let valid := verify (signature coin) (toString coin) (n coin) (e coin) in
  if negb valid then
    throw (Error "Invalid coin signature.")
  else
    emit (RandInt 2) ;;;
    let isLeft := Nat.eqb r 0 in
    let selectedHalf := [] in
    hashes <- lift (parseCoin (toString coin)) ;;
    let (leftHashes, rightHashes) := hashes in
    accept_loop coin isLeft leftHashes rightHashes
      COIN_RIS_LENGTH 0 selectedHalf.

(** The function the rest of the program calls: its body declares the
    function above and ends without calling it. *)
Definition acceptCoin {A : Type} (coin : A) : M value :=
  let acceptCoin := acceptCoin_nested in
  ret VUndefined.

(** *** determineCheater (lines 109-136) *)

(** Lines 113-119 for one index: [part1.length] needs [part1], and
    [part2[j]] is read once per byte of [part1]. *)
Definition xorBuf (part1 part2 : option Buffer) : completion Buffer :=
  match part1 with
  | None =>
      Throw (TypeError "Cannot read properties of undefined (reading 'length')")
  | Some p1 =>
      match p1, part2 with
      | _ :: _, None =>
          Throw (TypeError "Cannot read properties of undefined (reading '0')")
      | [], None => Return []
      | _, Some p2 => Return (byteWiseXor p1 p2)
      end
  end.

(** The loop of lines 112-126, then line 128. *)
Fixpoint cheater_loop (ris1 ris2 : list Buffer) (remaining i : nat) : M value :=
  match remaining with
  | O =>
      emit (Log "RIS identical - Merchant is trying to double report, not the purchaser.") ;;;
      ret VUndefined
  | S remaining' =>
      let part1 := nth_error ris1 i in
      let part2 := nth_error ris2 i in
      xorBuf <- lift (xorBuf part1 part2) ;;
      let result := bufferToString xorBuf in
      if startsWith result IDENT_STR then
        emit (Log ("Double spending detected! Coin creator is: "
                   ++ show (nth_error (split ":" result) 1))) ;;;
        ret VUndefined
      else
        cheater_loop ris1 ris2 remaining' (S i)
  end.

(** The function declared inside [determineCheater] (lines 111-129). *)
Definition determineCheater_nested (guid : string) (ris1 ris2 : list Buffer)
  : M value :=
  cheater_loop ris1 ris2 COIN_RIS_LENGTH 0.

(** The function the rest of the program calls. *)
Definition determineCheater {A B C : Type} (guid : A) (ris1 : B) (ris2 : C)
  : M value :=
  let determineCheater := determineCheater_nested in
  ret VUndefined.

(** *** The demonstration (lines 145-160), from the unblinded coin on *)

Definition driver (coin : Coin) : M value :=
  ris1 <- acceptCoin coin ;;
  ris2 <- acceptCoin coin ;;
  determineCheater (guid coin) ris1 ris2 ;;;
  emit (Log "") ;;;
  determineCheater (guid coin) ris1 ris1.

End Driver.

(** ** The vocabulary of the specification *)

(** The line printed when the spender is unmasked ([SpenderIdentified]). *)
Definition spender_line (identity : string) : string :=
  "Double spending detected! Coin creator is: " ++ identity.

(** The line printed when a merchant is blamed ([MerchantDuplicate]). *)
Definition merchant_line : string :=
  "RIS identical - Merchant is trying to double report, not the purchaser.".

(** The identity-tag format [<IDENT_TAG>:<identity>]. *)
Definition identity_tag (IDENT_STR identity : string) : string :=
  IDENT_STR ++ ":" ++ identity.

(** A text is in the identity-tag format when it is the tag of some
    identity without the delimiter. *)
Definition in_tag_format (IDENT_STR text : string) : Prop :=
  exists identity, occurs ":" identity = false /\
                   text = identity_tag IDENT_STR identity.

(** The text arbitration tests at an index where both records have a
    share: the byte-wise XOR of the two shares, read as text. *)
Definition xor_text (bufferToString : Buffer -> string) (p1 p2 : Buffer)
    : string :=
  bufferToString (byteWiseXor p1 p2).

(** Property lookup in an object. *)
Fixpoint prop (key : string) (props : list (string * value)) : option value :=
  match props with
  | [] => None
  | (k, v) :: props' => if String.eqb k key then Some v else prop key props'
  end.

(** A JavaScript array of Buffers. *)
Definition array_of (shares : list Buffer) : value :=
  VArray (map VBuffer shares).

(** The specification's [DepositRecord{tokenId, side, revealedShare}]: an
    object that has the three properties, the first holding the token id
    and the last the revealed shares. *)
Definition is_deposit_record (tokenId : string) (shares : list Buffer)
    (v : value) : Prop :=
  exists props side,
    v = VObject props /\
    prop "tokenId" props = Some (VString tokenId) /\
    prop "side" props = Some side /\
    prop "revealedShare" props = Some (array_of shares).

(** Modelled from the spec: the invariant of a token created for an owner,
    which [coin.js] (not among the sources) establishes.  At every index the
    two shares XOR to a buffer whose text is the owner's identity tag. *)
Definition token_of (COIN_RIS_LENGTH : nat) (IDENT_STR : string)
    (bufferToString : Buffer -> string) (identity : string) (coin : Coin)
    : Prop :=
  forall i, i < COIN_RIS_LENGTH ->
    xor_text bufferToString (getRis coin true i) (getRis coin false i)
    = identity_tag IDENT_STR identity.

(** ** A concrete instance, for evaluation *)

Module Demo.

Definition COIN_RIS_LENGTH : nat := 3.
Definition IDENT_STR : string := "IDENT".
Definition BANK_STR : string := "BANK".

(** A stand-in for signature verification: the only valid signature of
    [message] under the key [(N, E)] is the text below. *)
Definition sign (message N E : string) : string :=
  "signed(" ++ N ++ "," ++ E ++ ")" ++ message.

Definition verify (unblinded message N E : string) : bool :=
  String.eqb unblinded (sign message N E).

(** Text of a buffer whose bytes are all below 128 (where UTF-8 is
    ASCII), and back. *)
Definition bufferToString (b : Buffer) : string :=
  string_of_list_ascii (map (fun z => ascii_of_N (Z.to_N z)) b).

Definition bufferFrom (s : string) : Buffer :=
  map (fun c => Z.of_N (N_of_ascii c)) (list_ascii_of_string s).

(** A stand-in for the hash: a letter per byte, so that digests contain
    neither [-] nor [,]. *)
Definition hash (b : Buffer) : string :=
  "h" ++ string_of_list_ascii
           (map (fun z => ascii_of_N (97 + Z.to_N z mod 26)) b).

Fixpoint join (sep : string) (l : list string) : string :=
  match l with
  | [] => ""
  | [x] => x
  | x :: l' => x ++ sep ++ join sep l'
  end.

(** Modelled from the spec: token creation, signing and unblinding
    ([coin.js] and the signing package are not among the sources).  The
    left shares are the pads, the right shares the pads XORed with the
    identity tag; the canonical string is
    [<BANK_TAG>-<amount>-<id>-<csv(leftHash)>-<csv(rightHash)>]. *)
Definition makeCoin (purchaser amount guid N E : string)
    (pads : list Buffer) : Coin :=
  let tag := bufferFrom (identity_tag IDENT_STR purchaser) in
  let leftIdent := pads in
  let rightIdent := map (fun pad => byteWiseXor pad tag) pads in
  let coinString :=
    (BANK_STR ++ "-" ++ amount ++ "-" ++ guid ++ "-"
     ++ join "," (map hash leftIdent) ++ "-"
     ++ join "," (map hash rightIdent))%string in
  {| signature := sign coinString N E;
     n := N;
     e := E;
     guid := guid;
     toString := coinString;
     getRis := fun isLeft i =>
       nth i (if isLeft then leftIdent else rightIdent) [] |}.

Definition pads : list Buffer :=
  [ [1; 2; 3; 4; 5; 6; 7; 8; 9; 10; 11];
    [12; 13; 14; 15; 16; 17; 18; 19; 20; 21; 22];
    [23; 24; 25; 26; 27; 28; 29; 30; 31; 32; 33] ]%Z.

(** The coin of line 138: identity alice, amount 20, three share pairs. *)
Definition coin : Coin := makeCoin "alice" "20" "4f2a9c" "N" "E" pads.

(** The same coin with a signature the bank never made. *)
Definition forged : Coin :=
  {| signature := "forged";
     n := n coin;
     e := e coin;
     guid := guid coin;
     toString := toString coin;
     getRis := getRis coin |}.

(** The two halves of the coin, as a merchant reveals them. *)
Definition left_half : list Buffer := map (getRis coin true) (seq 0 3).
Definition right_half : list Buffer := map (getRis coin false) (seq 0 3).

(** The left half with the first byte of share 0 altered (1 became 9). *)
Definition damaged_left_half : list Buffer :=
  [9; 2; 3; 4; 5; 6; 7; 8; 9; 10; 11]%Z :: tl left_half.

(** The right half with one bit of share 0 flipped, in the byte that
    carries the delimiter (60 became 61): the XOR with the left share
    reads [IDENT;alice]. *)
Definition damaged_right_half : list Buffer :=
  [72; 70; 70; 74; 81; 61; 102; 100; 96; 105; 110]%Z :: tl right_half.

(** The program at this instance. *)
Definition parseCoin := parseCoin BANK_STR.
Definition acceptCoin_nested :=
  acceptCoin_nested COIN_RIS_LENGTH BANK_STR verify hash.
Definition acceptCoin {A : Type} :=
  @acceptCoin COIN_RIS_LENGTH BANK_STR verify hash A.
Definition determineCheater_nested :=
  determineCheater_nested COIN_RIS_LENGTH IDENT_STR bufferToString.
Definition determineCheater {A B C : Type} :=
  @determineCheater COIN_RIS_LENGTH IDENT_STR bufferToString A B C.
Definition driver :=
  driver COIN_RIS_LENGTH IDENT_STR BANK_STR verify hash bufferToString.
Definition xor_text := xor_text bufferToString.

End Demo.

(** ** Further vocabulary, for the properties beyond the claims *)

(** A byte, as a Buffer stores it. *)
Definition byte (z : Z) : Prop := (0 <= z < 256)%Z.

(** A text that can stand as one entry of a comma-separated field of the
    canonical string: it holds neither [-] nor [,]. *)
Definition entry (h : string) : Prop :=
  occurs "-" h = false /\ occurs "," h = false.

(** The calls the acceptance loop makes for [remaining] indices from [i]
    on: each share is fetched, then hashed. *)
Fixpoint share_calls (coin : Coin) (isLeft : bool) (i remaining : nat)
    : list event :=
  match remaining with
  | O => []
  | S remaining' =>
      GetRis isLeft i :: Hash (getRis coin isLeft i)
      :: share_calls coin isLeft (S i) remaining'
  end.

(** The second share at an index, read as the empty buffer when it is
    missing (the XOR loop then reads every byte of it as 0). *)
Definition share_or_empty (ris : list Buffer) (i : nat) : Buffer :=
  match nth_error ris i with
  | Some p => p
  | None => []
  end.

(** More coins and records of the concrete instance. *)
Module Cases.

(** The demonstration coin with one byte of the left share 1 altered
    after signing; the canonical string and the signature are unchanged. *)
Definition tampered : Coin :=
  {| signature := signature Demo.coin;
     n := n Demo.coin;
     e := e Demo.coin;
     guid := guid Demo.coin;
     toString := toString Demo.coin;
     getRis := fun isLeft i =>
       if isLeft && Nat.eqb i 1
       then [13; 13; 14; 15; 16; 17; 18; 19; 20; 21; 22]%Z
       else getRis Demo.coin isLeft i |}.

(** A coin whose canonical string has only four fields, with a signature
    that verifies over that string. *)
Definition truncated : Coin :=
  {| signature := Demo.sign "BANK-20-4f2a9c-ha,hb,hc" "N" "E";
     n := "N";
     e := "E";
     guid := "4f2a9c";
     toString := "BANK-20-4f2a9c-ha,hb,hc";
     getRis := getRis Demo.coin |}.

(** The left half with its last share missing. *)
Definition short_half : list Buffer := firstn 2 Demo.left_half.

(** A record whose single share XORs with the left share 0 of the coin to
    the text [IDENT:al:ce]. *)
Definition two_colons : list Buffer :=
  [byteWiseXor (getRis Demo.coin true 0) (Demo.bufferFrom "IDENT:al:ce")].

(** A coin whose canonical string lists only two hashes per side, with
    a signature that verifies over that string. *)
Definition underlisted : Coin :=
  {| signature :=
       Demo.sign "BANK-20-4f2a9c-hbcdefghijkl,hmnopqrstuvw-husswdiywsbg,hrvxnqrlxvol"
         "N" "E";
     n := "N";
     e := "E";
     guid := "4f2a9c";
     toString :=
       "BANK-20-4f2a9c-hbcdefghijkl,hmnopqrstuvw-husswdiywsbg,hrvxnqrlxvol";
     getRis := getRis Demo.coin |}.

End Cases.

(** * Properties *)

(** ** The monad *)

Lemma bind_ret {A B} (a : A) (f : A -> M B) : bind (ret a) f = f a.
Proof. unfold bind, ret. destruct (f a) as [t c]. reflexivity. Qed.

Lemma bind_emit {B} (ev : event) (k : M B) :
  (emit ev ;;; k) = (ev :: fst k, snd k).
Proof. unfold bind, emit. destruct k as [t c]. reflexivity. Qed.

Lemma bind_lift_return {A B} (a : A) (f : A -> M B) :
  bind (lift (Return a)) f = f a.
Proof. apply bind_ret. Qed.

Lemma bind_lift_throw {A B} (err : error) (f : A -> M B) :
  bind (lift (Throw err)) f = ([], Throw err).
Proof. reflexivity. Qed.

(** ** Strings *)

Lemma split_not_nil sep s : split sep s <> [].
Proof.
  destruct s as [|c s]; simpl; [discriminate|].
  destruct (Ascii.eqb c sep); [discriminate|].
  destruct (split sep s); discriminate.
Qed.

Lemma split_free sep s : occurs sep s = false -> split sep s = [s].
Proof.
  induction s as [|c s IH]; simpl; [reflexivity|].
  intros H. apply orb_false_iff in H as [Hc Hs].
  rewrite Hc, (IH Hs). reflexivity.
Qed.

Lemma split_app sep a b :
  occurs sep a = false ->
  split sep (a ++ String sep b) = a :: split sep b.
Proof.
  induction a as [|c a IH]; simpl.
  - intros _. rewrite Ascii.eqb_refl. reflexivity.
  - intros H. apply orb_false_iff in H as [Hc Ha].
    rewrite Hc, (IH Ha). reflexivity.
Qed.

Lemma startsWith_app s t : startsWith (s ++ t) s = true.
Proof.
  unfold startsWith. induction s as [|c s IH]; simpl.
  - destruct t; reflexivity.
  - destruct (ascii_dec c c) as [_|Hn]; [exact IH | now elim Hn].
Qed.

(** The identity printed for a text in the identity-tag format is the
    identity: [result.split(':')[1]]. *)
Lemma split_identity_tag IDENT_STR identity :
  occurs ":" IDENT_STR = false -> occurs ":" identity = false ->
  nth_error (split ":" (identity_tag IDENT_STR identity)) 1 = Some identity.
Proof.
  intros Ht Hi. unfold identity_tag.
  change (":" ++ identity)%string with (String ":" identity).
  rewrite (split_app _ _ _ Ht), (split_free _ _ Hi). reflexivity.
Qed.

(** ** parseCoin *)

Section ParseCoin.

Variable BANK_STR : string.

(** C7: a canonical string whose first [-]-separated field is not
    [BANK_STR] makes [parseCoin] throw its format error, whatever the
    other fields are. *)
Theorem parseCoin_foreign_tag (s : string) :
  hd_error (split "-" s) <> Some BANK_STR ->
  parseCoin BANK_STR s
  = Throw (Error ("Invalid identity string: " ++ show (hd_error (split "-" s))
                  ++ " received, but " ++ BANK_STR ++ " expected")).
Proof.
  intros H. unfold parseCoin.
  destruct (split "-" s) as [|cnst fields] eqn:E.
  - now apply split_not_nil in E.
  - simpl in *. destruct (String.eqb_spec cnst BANK_STR) as [->|_].
    + now elim H.
    + reflexivity.
Qed.

(** The same with the first field written out: nothing after the first
    [-] matters. *)
Corollary parseCoin_foreign_tag_any_rest (cnst rest : string) :
  occurs "-" cnst = false -> cnst <> BANK_STR ->
  parseCoin BANK_STR (cnst ++ String "-" rest)
  = Throw (Error ("Invalid identity string: " ++ cnst
                  ++ " received, but " ++ BANK_STR ++ " expected")).
Proof.
  intros Hc Hne. unfold parseCoin. rewrite (split_app _ _ _ Hc). simpl.
  destruct (String.eqb_spec cnst BANK_STR) as [->|_];
    [now elim Hne | reflexivity].
Qed.

Lemma nth_error_short {A} (l : list A) (k : nat) :
  length l <= k -> nth_error l k = None.
Proof. apply nth_error_None. Qed.

(** C8, as amended: [parseCoin] fails on every input with fewer than five
    [-]-separated fields, and on an input with five or more fields whose
    first is [BANK_STR] it returns the comma-separated entries of the
    fourth and fifth fields; it looks neither at the number of fields
    beyond the fifth, nor at the lengths of the two lists, nor at the
    amount. *)
Theorem parseCoin_checks (s : string) :
  (length (split "-" s) < 5 -> exists err, parseCoin BANK_STR s = Throw err)
  /\ (forall amt guid leftHashes rightHashes more,
        split "-" s = BANK_STR :: amt :: guid :: leftHashes :: rightHashes :: more ->
        parseCoin BANK_STR s
        = Return (split "," leftHashes, split "," rightHashes)).
Proof.
  split.
  - intros Hlen. unfold parseCoin.
    destruct (strict_neq _ _); [eauto|].
    destruct (nth_error (split "-" s) 3) eqn:E3; [|eauto].
    rewrite (nth_error_short (split "-" s) 4) by lia. eauto.
  - intros amt guid lh rh more E. unfold parseCoin. rewrite E. simpl.
    rewrite String.eqb_refl. reflexivity.
Qed.

(** C8, the claim as written fails: six fields, a non-numeric amount and
    hash lists of lengths 2 and 1 are parsed without an error, and so is
    a negative amount (which only shifts the fields). *)
Lemma parseCoin_accepts_malformed :
  length (split "-" "BANK-x1-4f2a9c-ha,hb-hc-more") = 6
  /\ parseCoin "BANK" "BANK-x1-4f2a9c-ha,hb-hc-more"
     = Return (["ha"; "hb"], ["hc"])
  /\ parseCoin "BANK" "BANK--5-4f2a9c-ha-hb"
     = Return (["4f2a9c"], ["ha"]).
Proof. repeat split. Qed.

End ParseCoin.

(** ** Acceptance *)

Section Acceptance.

Variable COIN_RIS_LENGTH : nat.
Variable BANK_STR : string.
Variable verify : string -> string -> string -> string -> bool.
Variable hash : Buffer -> string.


Lemma accept_loop_step coin isLeft lh rh remaining i acc :
  accept_loop hash coin isLeft lh rh (S remaining) i acc
  = let ris := getRis coin isLeft i in
    let k :=
      if strict_neq (Some (hash ris)) (expected_hash isLeft lh rh i)
      then throw (Error "Hash mismatch, coin tampered.")
      else accept_loop hash coin isLeft lh rh remaining (S i) (acc ++ [ris]) in
    (GetRis isLeft i :: Hash ris :: fst k, snd k).
Proof.
  cbn [accept_loop]. rewrite bind_emit, bind_emit. reflexivity.
Qed.

(** Whatever the loop returns is the accumulator followed by the shares
    of the chosen side at the remaining indices, in order. *)
Lemma accept_loop_returns coin isLeft lh rh remaining :
  forall i acc shares,
    outcome (accept_loop hash coin isLeft lh rh remaining i acc) = Return shares ->
    shares = acc ++ map (getRis coin isLeft) (seq i remaining).
Proof.
  induction remaining as [|remaining IH]; intros i acc shares.
  - simpl. intros [= <-]. now rewrite app_nil_r.
  - rewrite accept_loop_step. cbv zeta. unfold outcome. cbn [snd].
    destruct (strict_neq _ _); [discriminate|].
    intros H. apply IH in H. rewrite H, <- app_assoc. reflexivity.
Qed.

(** The loop succeeds when every commitment matches. *)
Lemma accept_loop_succeeds coin isLeft lh rh remaining :
  forall i acc,
    (forall j, i <= j < i + remaining ->
       expected_hash isLeft lh rh j = Some (hash (getRis coin isLeft j))) ->
    outcome (accept_loop hash coin isLeft lh rh remaining i acc)
    = Return (acc ++ map (getRis coin isLeft) (seq i remaining)).
Proof.
  induction remaining as [|remaining IH]; intros i acc Hm.
  - simpl. now rewrite app_nil_r.
  - rewrite accept_loop_step. cbv zeta. unfold outcome. cbn [snd].
    rewrite (Hm i) by lia. cbn [strict_neq]. rewrite String.eqb_refl. cbn [negb].
    fold (outcome (accept_loop hash coin isLeft lh rh remaining (S i)
                     (acc ++ [getRis coin isLeft i]))).
    rewrite IH by (intros j Hj; apply Hm; lia).
    rewrite <- app_assoc. reflexivity.
Qed.

(** The nested function first calls [verify], whatever the coin. *)
Lemma acceptCoin_nested_verifies_first coin r :
  exists t,
    trace (acceptCoin_nested COIN_RIS_LENGTH BANK_STR verify hash coin r)
    = Verify (signature coin) (toString coin) (n coin) (e coin) :: t.
Proof.
  unfold acceptCoin_nested. rewrite bind_emit. eexists. reflexivity.
Qed.

(** With a signature that does not verify, the nested function throws
    after that single call. *)
Lemma acceptCoin_nested_invalid coin r :
  verify (signature coin) (toString coin) (n coin) (e coin) = false ->
  acceptCoin_nested COIN_RIS_LENGTH BANK_STR verify hash coin r
  = ([Verify (signature coin) (toString coin) (n coin) (e coin)],
     Throw (Error "Invalid coin signature.")).
Proof.
  intros H. unfold acceptCoin_nested. rewrite bind_emit, H. reflexivity.
Qed.

(** The nested function succeeds on a coin whose signature verifies and
    whose canonical string carries the hashes of the chosen side. *)
Lemma acceptCoin_nested_succeeds coin r lh rh :
  verify (signature coin) (toString coin) (n coin) (e coin) = true ->
  parseCoin BANK_STR (toString coin) = Return (lh, rh) ->
  (forall i, i < COIN_RIS_LENGTH ->
     expected_hash (Nat.eqb r 0) lh rh i
     = Some (hash (getRis coin (Nat.eqb r 0) i))) ->
  outcome (acceptCoin_nested COIN_RIS_LENGTH BANK_STR verify hash coin r)
  = Return (map (getRis coin (Nat.eqb r 0)) (seq 0 COIN_RIS_LENGTH)).
Proof.
  intros Hv Hp Hm. unfold acceptCoin_nested.
  rewrite bind_emit, Hv. cbn [negb]. rewrite bind_emit, Hp, bind_lift_return.
  unfold outcome. cbn [snd].
  apply (accept_loop_succeeds coin (Nat.eqb r 0) lh rh COIN_RIS_LENGTH 0 []).
  intros j Hj. apply Hm. lia.
Qed.

(** Two runs that draw the same side are the same run. *)
Lemma acceptCoin_nested_same_side coin r1 r2 :
  Nat.eqb r1 0 = Nat.eqb r2 0 ->
  acceptCoin_nested COIN_RIS_LENGTH BANK_STR verify hash coin r1 = acceptCoin_nested COIN_RIS_LENGTH BANK_STR verify hash coin r2.
Proof. intros H. unfold acceptCoin_nested. now rewrite H. Qed.

(** C1, as amended: when the acceptance procedure (the function nested
    in [acceptCoin]) succeeds, it returns the array of the
    [COIN_RIS_LENGTH] shares of the side drawn once for the call, entry
    [i] being [coin.getRis(isLeft, i)]; the array holds the shares only. *)
Theorem acceptCoin_nested_returns_half coin r shares :
  outcome (acceptCoin_nested COIN_RIS_LENGTH BANK_STR verify hash coin r) = Return shares ->
  shares = map (getRis coin (Nat.eqb r 0)) (seq 0 COIN_RIS_LENGTH)
  /\ length shares = COIN_RIS_LENGTH.
Proof.
  intros H.
  assert (E : shares = map (getRis coin (Nat.eqb r 0)) (seq 0 COIN_RIS_LENGTH)).
  { revert H. unfold acceptCoin_nested.
    rewrite bind_emit. unfold outcome. cbn [snd].
    destruct (verify _ _ _ _); cbn [negb]; [|discriminate].
    rewrite bind_emit. cbn [snd].
    destruct (parseCoin BANK_STR (toString coin)) as [[lh rh]|err].
    - rewrite bind_lift_return. intros H.
      now apply accept_loop_returns in H.
    - rewrite bind_lift_throw. discriminate. }
  split; [exact E|]. rewrite E, length_map, length_seq. reflexivity.
Qed.

(** C3, the program at a coin whose signature does not verify:
    [acceptCoin] returns [undefined] without a call to [verify] and
    without an exception, although the function nested in it would stop
    with "Invalid coin signature." right after the verification, before
    any share is fetched or hashed. *)
Theorem acceptCoin_ignores_invalid_signature coin r :
  verify (signature coin) (toString coin) (n coin) (e coin) = false ->
  acceptCoin COIN_RIS_LENGTH BANK_STR verify hash coin = ([], Return VUndefined)
  /\ acceptCoin_nested COIN_RIS_LENGTH BANK_STR verify hash coin r
     = ([Verify (signature coin) (toString coin) (n coin) (e coin)],
        Throw (Error "Invalid coin signature.")).
Proof.
  intros H. split; [reflexivity|]. now apply acceptCoin_nested_invalid.
Qed.

(** C9: for every argument [acceptCoin] returns [undefined]; it does not
    throw, and it calls neither the signature verification nor the hash
    (no call leaves the function at all). *)
Theorem acceptCoin_returns_undefined (A : Type) (coin : A) :
  acceptCoin COIN_RIS_LENGTH BANK_STR verify hash coin = ([], Return VUndefined).
Proof. reflexivity. Qed.

End Acceptance.

(** ** Arbitration *)

Section Arbitration.

Variable COIN_RIS_LENGTH : nat.
Variable IDENT_STR : string.
Variable bufferToString : Buffer -> string.



Lemma xorBuf_Some p1 p2 : xorBuf (Some p1) (Some p2) = Return (byteWiseXor p1 p2).
Proof. destruct p1; reflexivity. Qed.

Lemma cheater_loop_skip ris1 ris2 remaining i p1 p2 :
  nth_error ris1 i = Some p1 -> nth_error ris2 i = Some p2 ->
  startsWith (xor_text bufferToString p1 p2) IDENT_STR = false ->
  cheater_loop IDENT_STR bufferToString ris1 ris2 (S remaining) i = cheater_loop IDENT_STR bufferToString ris1 ris2 remaining (S i).
Proof.
  intros H1 H2 Hs. cbn [cheater_loop].
  rewrite H1, H2, xorBuf_Some, bind_lift_return.
  fold (xor_text bufferToString p1 p2). rewrite Hs. reflexivity.
Qed.

Lemma cheater_loop_hit ris1 ris2 remaining i p1 p2 :
  nth_error ris1 i = Some p1 -> nth_error ris2 i = Some p2 ->
  startsWith (xor_text bufferToString p1 p2) IDENT_STR = true ->
  cheater_loop IDENT_STR bufferToString ris1 ris2 (S remaining) i
  = ([Log (spender_line (show (nth_error (split ":" (xor_text bufferToString p1 p2)) 1)))],
     Return VUndefined).
Proof.
  intros H1 H2 Hs. cbn [cheater_loop].
  rewrite H1, H2, xorBuf_Some, bind_lift_return.
  fold (xor_text bufferToString p1 p2). rewrite Hs. reflexivity.
Qed.

(** No index in the scanned range begins with [IDENT_STR]: the loop runs
    to its end and blames the merchant. *)
Lemma cheater_loop_no_match ris1 ris2 remaining :
  forall i,
    (forall j, i <= j < i + remaining -> exists p1 p2,
       nth_error ris1 j = Some p1 /\ nth_error ris2 j = Some p2 /\
       startsWith (xor_text bufferToString p1 p2) IDENT_STR = false) ->
    cheater_loop IDENT_STR bufferToString ris1 ris2 remaining i = ([Log merchant_line], Return VUndefined).
Proof.
  induction remaining as [|remaining IH]; intros i H.
  - reflexivity.
  - destruct (H i) as (p1 & p2 & H1 & H2 & Hs); [lia|].
    rewrite (cheater_loop_skip _ _ _ _ _ _ H1 H2 Hs).
    apply IH. intros j Hj. apply H. lia.
Qed.

(** The first index that begins with [IDENT_STR] ends the loop. *)
Lemma cheater_loop_first_match ris1 ris2 p1 p2 before :
  forall remaining i,
    before < remaining ->
    (forall j, i <= j < i + before -> exists q1 q2,
       nth_error ris1 j = Some q1 /\ nth_error ris2 j = Some q2 /\
       startsWith (xor_text bufferToString q1 q2) IDENT_STR = false) ->
    nth_error ris1 (i + before) = Some p1 ->
    nth_error ris2 (i + before) = Some p2 ->
    startsWith (xor_text bufferToString p1 p2) IDENT_STR = true ->
    cheater_loop IDENT_STR bufferToString ris1 ris2 remaining i
    = ([Log (spender_line (show (nth_error (split ":" (xor_text bufferToString p1 p2)) 1)))],
       Return VUndefined).
Proof.
  induction before as [|before IH]; intros remaining i Hlt Hskip H1 H2 Hs.
  - destruct remaining as [|remaining]; [lia|].
    rewrite Nat.add_0_r in H1, H2. now apply cheater_loop_hit.
  - destruct remaining as [|remaining]; [lia|].
    destruct (Hskip i) as (q1 & q2 & Hq1 & Hq2 & Hq); [lia|].
    rewrite (cheater_loop_skip _ _ _ _ _ _ Hq1 Hq2 Hq).
    apply IH.
    + lia.
    + intros j Hj. apply Hskip. lia.
    + now replace (S i + before) with (i + S before) by lia.
    + now replace (S i + before) with (i + S before) by lia.
    + exact Hs.
Qed.

Lemma byteWiseXor_self p : byteWiseXor p p = repeat 0%Z (length p).
Proof.
  induction p as [|a p IH]; simpl; [reflexivity|].
  now rewrite Z.lxor_nilpotent, IH.
Qed.

(** A text in the identity-tag format begins with [IDENT_STR]. *)
Lemma in_tag_format_startsWith text :
  in_tag_format IDENT_STR text -> startsWith text IDENT_STR = true.
Proof.
  intros (identity & _ & ->). apply startsWith_app.
Qed.

Lemma nth_error_firstn_app {A} (l later : list A) i j x :
  j <= i -> nth_error l j = Some x ->
  nth_error (firstn (S i) l ++ later) j = Some x.
Proof.
  intros Hj H.
  assert (j < length l) by (apply nth_error_Some; congruence).
  rewrite nth_error_app1 by (rewrite length_firstn; lia).
  rewrite nth_error_firstn.
  destruct (Nat.ltb_spec j (S i)); [exact H | lia].
Qed.

(** C2, as amended: when both records have a share at every index below
    [COIN_RIS_LENGTH] and at none of them the XOR text begins with
    [IDENT_STR], the arbitration procedure (the function nested in
    [determineCheater]) prints the merchant line, whether the shares are
    identical or not; there is no third verdict. *)
Theorem determineCheater_nested_no_tag (guid : string) ris1 ris2 :
  (forall i, i < COIN_RIS_LENGTH -> exists p1 p2,
     nth_error ris1 i = Some p1 /\ nth_error ris2 i = Some p2 /\
     startsWith (xor_text bufferToString p1 p2) IDENT_STR = false) ->
  determineCheater_nested COIN_RIS_LENGTH IDENT_STR bufferToString guid ris1 ris2 = ([Log merchant_line], Return VUndefined).
Proof.
  intros H. unfold determineCheater_nested.
  apply cheater_loop_no_match. intros j Hj. apply H. lia.
Qed.

(** C5, as amended: the arbitration procedure scans the indices in
    order; at the first index [i] whose XOR text begins with [IDENT_STR]
    it prints the spender line with the text between the first and the
    second [:] as the identity and returns at once.  The later entries
    are not read: replacing them by anything, or dropping them, changes
    nothing.  For a text [IDENT_STR:identity] with no [:] in either part
    the identity printed is [identity]. *)
Theorem determineCheater_nested_first_match (guid : string) ris1 ris2 i p1 p2 :
  i < COIN_RIS_LENGTH ->
  (forall j, j < i -> exists q1 q2,
     nth_error ris1 j = Some q1 /\ nth_error ris2 j = Some q2 /\
     startsWith (xor_text bufferToString q1 q2) IDENT_STR = false) ->
  nth_error ris1 i = Some p1 ->
  nth_error ris2 i = Some p2 ->
  startsWith (xor_text bufferToString p1 p2) IDENT_STR = true ->
  let report :=
    ([Log (spender_line (show (nth_error (split ":" (xor_text bufferToString p1 p2)) 1)))],
     Return VUndefined) in
  determineCheater_nested COIN_RIS_LENGTH IDENT_STR bufferToString guid ris1 ris2 = report
  /\ (forall later1 later2,
        determineCheater_nested COIN_RIS_LENGTH IDENT_STR bufferToString guid (firstn (S i) ris1 ++ later1)
                              (firstn (S i) ris2 ++ later2) = report)
  /\ (forall identity,
        occurs ":" IDENT_STR = false -> occurs ":" identity = false ->
        xor_text bufferToString p1 p2 = identity_tag IDENT_STR identity ->
        report = ([Log (spender_line identity)], Return VUndefined)).
Proof.
  intros Hi Hskip H1 H2 Hs report. repeat split.
  - unfold determineCheater_nested.
    apply (cheater_loop_first_match ris1 ris2 p1 p2 i); auto.
    intros j Hj. apply Hskip. lia.
  - intros later1 later2. unfold determineCheater_nested.
    apply (cheater_loop_first_match _ _ p1 p2 i); auto.
    + intros j Hj. destruct (Hskip j) as (q1 & q2 & Hq1 & Hq2 & Hq); [lia|].
      exists q1, q2. repeat split; auto; apply nth_error_firstn_app; auto; lia.
    + now apply nth_error_firstn_app.
    + now apply nth_error_firstn_app.
  - intros identity Ht Hid E. unfold report.
    now rewrite E, split_identity_tag.
Qed.


(** C6, the program at a record arbitrated against itself:
    [determineCheater] prints nothing and returns [undefined], although
    the function nested in it would print the merchant line (the XOR of
    a share with itself is all zeros, a text that does not begin with
    [IDENT_STR]). *)
Theorem determineCheater_same_record (guid : string) (ris : list Buffer) :
  length ris = COIN_RIS_LENGTH ->
  (forall m, startsWith (bufferToString (repeat 0%Z m)) IDENT_STR = false) ->
  determineCheater COIN_RIS_LENGTH IDENT_STR bufferToString guid ris ris = ([], Return VUndefined)
  /\ determineCheater_nested COIN_RIS_LENGTH IDENT_STR bufferToString guid ris ris = ([Log merchant_line], Return VUndefined).
Proof.
  intros Hlen Hz. split; [reflexivity|].
  unfold determineCheater_nested. apply cheater_loop_no_match.
  intros j Hj. destruct (nth_error ris j) as [p|] eqn:E.
  - exists p, p. repeat split.
    unfold xor_text. rewrite byteWiseXor_self. apply Hz.
  - apply nth_error_None in E. lia.
Qed.

(** C10: for every three arguments [determineCheater] returns
    [undefined] and prints nothing: no verdict is produced. *)
Theorem determineCheater_returns_undefined (A B C : Type)
    (guid : A) (ris1 : B) (ris2 : C) :
  determineCheater COIN_RIS_LENGTH IDENT_STR bufferToString guid ris1 ris2 = ([], Return VUndefined).
Proof. reflexivity. Qed.

End Arbitration.

(** ** The program at the concrete instance *)

Lemma demo_coin_is_alice_token :
  token_of Demo.COIN_RIS_LENGTH Demo.IDENT_STR Demo.bufferToString
    "alice" Demo.coin.
Proof.
  intros i Hi. unfold Demo.COIN_RIS_LENGTH in Hi.
  destruct i as [|[|[|i]]]; [reflexivity..|lia].
Qed.

(** C1, the claim as written fails: accepting the demonstration coin with
    the left side drawn succeeds and yields the bare array of the three
    left shares, which is no deposit record (it has neither a token id nor
    a side) for any token id and share list; what [acceptCoin] itself
    returns, [undefined], is none either. *)
Lemma acceptCoin_yields_no_record :
  Demo.verify (signature Demo.coin) (toString Demo.coin)
    (n Demo.coin) (e Demo.coin) = true
  /\ outcome (Demo.acceptCoin_nested Demo.coin 0) = Return Demo.left_half
  /\ (forall tokenId shares,
        ~ is_deposit_record tokenId shares (array_of Demo.left_half))
  /\ outcome (Demo.acceptCoin Demo.coin) = Return VUndefined
  /\ (forall tokenId shares, ~ is_deposit_record tokenId shares VUndefined).
Proof.
  repeat split.
  - intros tokenId shares (props & side & H & _). discriminate H.
  - intros tokenId shares (props & side & H & _). discriminate H.
Qed.

Lemma acceptCoin_nested_returns_half_witness :
  outcome (Demo.acceptCoin_nested Demo.coin 1) = Return Demo.right_half
  /\ (Demo.right_half = map (getRis Demo.coin (Nat.eqb 1 0)) (seq 0 Demo.COIN_RIS_LENGTH)
      /\ length Demo.right_half = Demo.COIN_RIS_LENGTH).
Proof.
  split; [reflexivity|].
  apply (acceptCoin_nested_returns_half
           Demo.COIN_RIS_LENGTH Demo.BANK_STR Demo.verify Demo.hash Demo.coin 1).
  reflexivity.
Defined.

(** C2, the claim as written fails: the two records differ in share 0,
    at no index is the XOR text in the identity-tag format, and the
    arbitration procedure prints the merchant line. *)
Lemma differing_shares_blamed_on_merchant :
  nth_error Demo.damaged_left_half 0 <> nth_error Demo.left_half 0
  /\ (forall i p1 p2,
        nth_error Demo.damaged_left_half i = Some p1 ->
        nth_error Demo.left_half i = Some p2 ->
        ~ in_tag_format Demo.IDENT_STR (Demo.xor_text p1 p2))
  /\ Demo.determineCheater_nested (guid Demo.coin)
       Demo.damaged_left_half Demo.left_half
     = ([Log merchant_line], Return VUndefined).
Proof.
  repeat split.
  - discriminate.
  - intros i p1 p2 H1 H2 Hf.
    apply in_tag_format_startsWith in Hf.
    destruct i as [|[|[|i]]]; simpl in H1, H2;
      try (injection H1 as <-; injection H2 as <-; discriminate Hf).
    destruct i; discriminate H1.
Qed.

Lemma determineCheater_nested_no_tag_witness :
  (forall i, i < Demo.COIN_RIS_LENGTH -> exists p1 p2,
     nth_error Demo.damaged_left_half i = Some p1 /\
     nth_error Demo.left_half i = Some p2 /\
     startsWith (Demo.xor_text p1 p2) Demo.IDENT_STR = false)
  /\ Demo.determineCheater_nested (guid Demo.coin)
       Demo.damaged_left_half Demo.left_half
     = ([Log merchant_line], Return VUndefined).
Proof.
  assert (H : forall i, i < Demo.COIN_RIS_LENGTH -> exists p1 p2,
     nth_error Demo.damaged_left_half i = Some p1 /\
     nth_error Demo.left_half i = Some p2 /\
     startsWith (Demo.xor_text p1 p2) Demo.IDENT_STR = false).
  { intros i Hi. unfold Demo.COIN_RIS_LENGTH in Hi.
    destruct i as [|[|[|i]]]; [| | |lia];
      (eexists; eexists; repeat split; reflexivity). }
  split; [exact H|].
  exact (determineCheater_nested_no_tag
           Demo.COIN_RIS_LENGTH Demo.IDENT_STR Demo.bufferToString
           (guid Demo.coin) Demo.damaged_left_half Demo.left_half H).
Defined.

Lemma acceptCoin_ignores_invalid_signature_witness :
  Demo.verify (signature Demo.forged) (toString Demo.forged)
    (n Demo.forged) (e Demo.forged) = false
  /\ (Demo.acceptCoin Demo.forged = ([], Return VUndefined)
      /\ Demo.acceptCoin_nested Demo.forged 0
         = ([Verify (signature Demo.forged) (toString Demo.forged)
               (n Demo.forged) (e Demo.forged)],
            Throw (Error "Invalid coin signature."))).
Proof.
  split; [reflexivity|].
  apply (acceptCoin_ignores_invalid_signature
           Demo.COIN_RIS_LENGTH Demo.BANK_STR Demo.verify Demo.hash
           Demo.forged 0).
  reflexivity.
Defined.

(** C4, the program at the coin of the demonstration (identity alice,
    amount 20, three share pairs, a valid signature): the run of lines
    145-160 prints only the empty line of line 157, so nobody is
    identified; [acceptCoin] hands [undefined] to [determineCheater], which
    prints nothing.  The functions nested in the two would do what the
    comments say: the left and the right half are revealed and arbitration
    on them prints alice. *)
Theorem driver_identifies_nobody :
  token_of Demo.COIN_RIS_LENGTH Demo.IDENT_STR Demo.bufferToString
    "alice" Demo.coin
  /\ Demo.driver Demo.coin = ([Log ""], Return VUndefined)
  /\ Demo.acceptCoin Demo.coin = ([], Return VUndefined)
  /\ Demo.determineCheater (guid Demo.coin) VUndefined VUndefined
     = ([], Return VUndefined)
  /\ outcome (Demo.acceptCoin_nested Demo.coin 0) = Return Demo.left_half
  /\ outcome (Demo.acceptCoin_nested Demo.coin 1) = Return Demo.right_half
  /\ Demo.determineCheater_nested (guid Demo.coin)
       Demo.left_half Demo.right_half
     = ([Log (spender_line "alice")], Return VUndefined).
Proof.
  split; [exact demo_coin_is_alice_token|]. repeat split.
Qed.

(** C5, the claim as written fails: with one bit of the right share 0
    flipped, the XOR text at index 0 is [IDENT;alice], which is not in the
    identity-tag format, and index 1 is the first whose text is
    ([IDENT:alice]); the scan nevertheless stops at index 0, since the text
    there begins with [IDENT], and prints [undefined] as the creator. *)
Lemma scan_stops_at_prefix_without_delimiter :
  (exists p1 p2,
     nth_error Demo.left_half 0 = Some p1 /\
     nth_error Demo.damaged_right_half 0 = Some p2 /\
     Demo.xor_text p1 p2 = "IDENT;alice" /\
     ~ in_tag_format Demo.IDENT_STR (Demo.xor_text p1 p2))
  /\ (exists p1 p2,
       nth_error Demo.left_half 1 = Some p1 /\
       nth_error Demo.damaged_right_half 1 = Some p2 /\
       Demo.xor_text p1 p2 = identity_tag Demo.IDENT_STR "alice")
  /\ Demo.determineCheater_nested (guid Demo.coin)
       Demo.left_half Demo.damaged_right_half
     = ([Log (spender_line "undefined")], Return VUndefined)
  /\ Demo.determineCheater_nested (guid Demo.coin)
       Demo.left_half Demo.damaged_right_half
     <> ([Log (spender_line "alice")], Return VUndefined).
Proof.
  split; [|split; [|split]].
  - eexists; eexists. repeat split.
    intros (identity & _ & H). vm_compute in H. discriminate H.
  - eexists; eexists. repeat split.
  - reflexivity.
  - discriminate.
Qed.

Lemma determineCheater_nested_first_match_witness :
  1 < Demo.COIN_RIS_LENGTH
  /\ (forall j, j < 1 -> exists q1 q2,
        nth_error Demo.damaged_left_half j = Some q1 /\
        nth_error Demo.right_half j = Some q2 /\
        startsWith (Demo.xor_text q1 q2) Demo.IDENT_STR = false)
  /\ Demo.determineCheater_nested (guid Demo.coin)
       Demo.damaged_left_half Demo.right_half
     = ([Log (spender_line "alice")], Return VUndefined)
  /\ Demo.determineCheater_nested (guid Demo.coin)
       (firstn 2 Demo.damaged_left_half) (firstn 2 Demo.right_half ++ [[]])
     = ([Log (spender_line "alice")], Return VUndefined).
Proof.
  assert (Hk : 1 < Demo.COIN_RIS_LENGTH) by (unfold Demo.COIN_RIS_LENGTH; lia).
  assert (Hskip : forall j, j < 1 -> exists q1 q2,
        nth_error Demo.damaged_left_half j = Some q1 /\
        nth_error Demo.right_half j = Some q2 /\
        startsWith (Demo.xor_text q1 q2) Demo.IDENT_STR = false).
  { intros j Hj. destruct j as [|j]; [|lia].
    eexists; eexists; repeat split; reflexivity. }
  pose proof (determineCheater_nested_first_match
                Demo.COIN_RIS_LENGTH Demo.IDENT_STR Demo.bufferToString
                (guid Demo.coin) Demo.damaged_left_half Demo.right_half 1
                (nth 1 Demo.damaged_left_half []) (nth 1 Demo.right_half [])
                Hk Hskip eq_refl eq_refl eq_refl) as (Hrun & Hlater & _).
  split; [exact Hk|]. split; [exact Hskip|]. split.
  - exact Hrun.
  - exact (Hlater [] [[]]).
Defined.

Lemma determineCheater_same_record_witness :
  length Demo.left_half = Demo.COIN_RIS_LENGTH
  /\ (forall m, startsWith (Demo.bufferToString (repeat 0%Z m)) Demo.IDENT_STR = false)
  /\ Demo.determineCheater (guid Demo.coin) Demo.left_half Demo.left_half
     = ([], Return VUndefined)
  /\ Demo.determineCheater_nested (guid Demo.coin) Demo.left_half Demo.left_half
     = ([Log merchant_line], Return VUndefined).
Proof.
  assert (Hz : forall m,
             startsWith (Demo.bufferToString (repeat 0%Z m)) Demo.IDENT_STR = false)
    by (intros [|m]; reflexivity).
  split; [reflexivity|]. split; [exact Hz|].
  exact (determineCheater_same_record
           Demo.COIN_RIS_LENGTH Demo.IDENT_STR Demo.bufferToString
           (guid Demo.coin) Demo.left_half eq_refl Hz).
Defined.

Lemma parseCoin_foreign_tag_witness :
  hd_error (split "-" "EVIL-20-4f2a9c-ha,hb-hc,hd") <> Some Demo.BANK_STR
  /\ Demo.parseCoin "EVIL-20-4f2a9c-ha,hb-hc,hd"
     = Throw (Error "Invalid identity string: EVIL received, but BANK expected").
Proof.
  assert (H : hd_error (split "-" "EVIL-20-4f2a9c-ha,hb-hc,hd") <> Some Demo.BANK_STR)
    by (simpl; discriminate).
  split; [exact H|].
  exact (parseCoin_foreign_tag Demo.BANK_STR "EVIL-20-4f2a9c-ha,hb-hc,hd" H).
Defined.

Lemma parseCoin_checks_witness :
  (exists err, Demo.parseCoin "BANK-20-4f2a9c-ha,hb" = Throw err)
  /\ Demo.parseCoin "BANK-20-4f2a9c-ha,hb-hc,hd"
     = Return (["ha"; "hb"], ["hc"; "hd"]).
Proof.
  split.
  - apply (proj1 (parseCoin_checks Demo.BANK_STR "BANK-20-4f2a9c-ha,hb")).
    simpl. lia.
  - apply (proj2 (parseCoin_checks Demo.BANK_STR "BANK-20-4f2a9c-ha,hb-hc,hd")
             "20" "4f2a9c" "ha,hb" "hc,hd" []).
    reflexivity.
Defined.

(** * Properties beyond the claims *)

(** ** Splitting and joining *)

Lemma occurs_app c a b : occurs c (a ++ b) = occurs c a || occurs c b.
Proof.
  induction a as [|d a IH]; simpl; [reflexivity|].
  now rewrite IH, orb_assoc.
Qed.

Lemma split_cons_inv sep c s :
  Ascii.eqb c sep = false ->
  exists f fs, split sep s = f :: fs /\ split sep (String c s) = String c f :: fs.
Proof.
  intros Hc. simpl. rewrite Hc.
  destruct (split sep s) as [|f fs] eqn:E.
  - now apply split_not_nil in E.
  - eauto.
Qed.

(** Every field [split] returns is a piece of the text without the
    separator. *)
Lemma split_fields sep s f :
  In f (split sep s) ->
  occurs sep f = false /\ (forall c, occurs c f = true -> occurs c s = true).
Proof.
  revert f. induction s as [|c s IH]; intros f Hin.
  - simpl in Hin. destruct Hin as [<-|[]]. split; [reflexivity|]. intros; assumption.
  - destruct (Ascii.eqb c sep) eqn:Hc.
    + simpl in Hin. rewrite Hc in Hin. destruct Hin as [<-|Hin].
      * split; [reflexivity|]. discriminate.
      * destruct (IH f Hin) as [H1 H2]. split; [exact H1|].
        intros d Hd. simpl. rewrite (H2 d Hd). apply orb_true_r.
    + destruct (split_cons_inv sep c s Hc) as (g & gs & Eg & Es).
      rewrite Es in Hin. destruct Hin as [<-|Hin].
      * destruct (IH g) as [H1 H2]; [rewrite Eg; now left|].
        split; [simpl; now rewrite Hc, H1|].
        intros d Hd. simpl in *. apply orb_true_iff in Hd as [Hd|Hd].
        -- now rewrite Hd.
        -- rewrite (H2 d Hd). apply orb_true_r.
      * destruct (IH f) as [H1 H2]; [rewrite Eg; now right|].
        split; [exact H1|].
        intros d Hd. simpl. rewrite (H2 d Hd). apply orb_true_r.
Qed.

Lemma split_join sep l :
  l <> [] -> Forall (fun f => occurs sep f = false) l ->
  split sep (Demo.join (String sep "") l) = l.
Proof.
  intros Hne Hl. induction Hl as [|f l Hf Hl IH]; [now elim Hne|].
  destruct l as [|g l].
  - simpl. now apply split_free.
  - change (Demo.join (String sep "") (f :: g :: l))
      with (f ++ String sep (Demo.join (String sep "") (g :: l)))%string.
    rewrite (split_app _ _ _ Hf), IH; [reflexivity | discriminate].
Qed.

Lemma occurs_join c sep l :
  occurs c sep = false -> Forall (fun f => occurs c f = false) l ->
  occurs c (Demo.join sep l) = false.
Proof.
  intros Hs Hl. induction Hl as [|f l Hf Hl IH]; [reflexivity|].
  destruct l as [|g l]; [exact Hf|].
  change (Demo.join sep (f :: g :: l))
    with (f ++ sep ++ Demo.join sep (g :: l))%string.
  now rewrite !occurs_app, Hf, Hs, IH.
Qed.

(** ** More on parseCoin *)

Section ParseCoinMore.

Variable BANK_STR : string.

Lemma hd_split_sep_free sep s f :
  hd_error (split sep s) = Some f -> occurs sep f = false.
Proof.
  intros H. apply (split_fields sep s f).
  destruct (split sep s); [discriminate|]. injection H as ->. now left.
Qed.

Lemma parseCoin_returns_inv s lh rh :
  parseCoin BANK_STR s = Return (lh, rh) ->
  exists leftHashes rightHashes,
    nth_error (split "-" s) 0 = Some BANK_STR /\
    nth_error (split "-" s) 3 = Some leftHashes /\
    nth_error (split "-" s) 4 = Some rightHashes /\
    lh = split "," leftHashes /\ rh = split "," rightHashes.
Proof.
  unfold parseCoin. cbv zeta.
  destruct (nth_error (split "-" s) 0) as [cnst|] eqn:E0;
    cbn [strict_neq]; [|discriminate].
  destruct (String.eqb_spec cnst BANK_STR) as [->|]; cbn [negb]; [|discriminate].
  destruct (nth_error (split "-" s) 3) as [l|]; [|discriminate].
  destruct (nth_error (split "-" s) 4) as [r|]; [|discriminate].
  intros [= <- <-]. eauto 10.
Qed.

(** X1: writing and reading back.  The canonical string built from
    [BANK_STR], an amount, an id and two non-empty lists of hashes, none of
    which holds a [-] and no hash a [,], parses to exactly the two lists. *)
Theorem parseCoin_round_trip (amt guid : string) (lh rh : list string) :
  occurs "-" BANK_STR = false ->
  occurs "-" amt = false -> occurs "-" guid = false ->
  lh <> [] -> rh <> [] ->
  Forall entry lh -> Forall entry rh ->
  parseCoin BANK_STR
    (BANK_STR ++ "-" ++ amt ++ "-" ++ guid ++ "-"
     ++ Demo.join "," lh ++ "-" ++ Demo.join "," rh)
  = Return (lh, rh).
Proof.
  intros Hb Ha Hg Hl Hr Fl Fr.
  assert (Dl : occurs "-" (Demo.join "," lh) = false).
  { apply occurs_join; [reflexivity|].
    eapply Forall_impl; [|exact Fl]. now intros h [H _]. }
  assert (Dr : occurs "-" (Demo.join "," rh) = false).
  { apply occurs_join; [reflexivity|].
    eapply Forall_impl; [|exact Fr]. now intros h [H _]. }
  assert (Cl : Forall (fun f => occurs "," f = false) lh)
    by (eapply Forall_impl; [|exact Fl]; now intros h [_ H]).
  assert (Cr : Forall (fun f => occurs "," f = false) rh)
    by (eapply Forall_impl; [|exact Fr]; now intros h [_ H]).
  unfold parseCoin.
  change ("-" ++ ?x)%string with (String "-" x).
  rewrite (split_app _ _ _ Hb).
  change ("-" ++ guid ++ "-" ++ Demo.join "," lh ++ "-" ++ Demo.join "," rh)%string
    with (String "-" (guid ++ String "-" (Demo.join "," lh ++ String "-" (Demo.join "," rh)))).
  rewrite (split_app _ _ _ Ha), (split_app _ _ _ Hg), (split_app _ _ _ Dl).
  rewrite (split_free _ _ Dr). simpl. rewrite String.eqb_refl. simpl.
  now rewrite (split_join "," lh Hl Cl), (split_join "," rh Hr Cr).
Qed.

(** X2: whatever [parseCoin] returns, neither list is empty and no entry
    holds a [-] or a [,]; an empty field parses to the one-entry list of
    the empty text, never to the empty list. *)
Theorem parseCoin_returns_entries (s : string) (lh rh : list string) :
  parseCoin BANK_STR s = Return (lh, rh) ->
  lh <> [] /\ rh <> [] /\ Forall entry lh /\ Forall entry rh.
Proof.
  intros H. apply parseCoin_returns_inv in H
    as (l & r & _ & H3 & H4 & -> & ->).
  assert (K : forall k f, nth_error (split "-" s) k = Some f ->
                split "," f <> [] /\ Forall entry (split "," f)).
  { intros k f Hk. split; [apply split_not_nil|].
    apply nth_error_In in Hk. apply split_fields in Hk as [Hd _].
    apply Forall_forall. intros h Hh.
    apply split_fields in Hh as [Hc Hsub]. split; [|exact Hc].
    destruct (occurs "-" h) eqn:E; [|reflexivity].
    apply Hsub in E. congruence. }
  destruct (K 3 l H3), (K 4 r H4). auto.
Qed.

(** X3: a text that begins with the right tag but has fewer than five
    fields does not get the parser's own error: reading the missing field
    raises the runtime's [TypeError]. *)
Theorem parseCoin_missing_field (s : string) :
  hd_error (split "-" s) = Some BANK_STR ->
  length (split "-" s) < 5 ->
  parseCoin BANK_STR s
  = Throw (TypeError "Cannot read properties of undefined (reading 'split')").
Proof.
  intros Hh Hlen. unfold parseCoin. cbv zeta.
  assert (E0 : nth_error (split "-" s) 0 = Some BANK_STR)
    by (destruct (split "-" s); [discriminate | exact Hh]).
  rewrite E0. cbn [strict_neq]. rewrite String.eqb_refl. cbn [negb].
  destruct (nth_error (split "-" s) 3) eqn:E3; [|reflexivity].
  rewrite (nth_error_short (split "-" s) 4) by lia. reflexivity.
Qed.

(** X4: the tag is compared with the first [-]-separated field, so when
    [BANK_STR] itself holds a [-] no text at all is accepted. *)
Theorem parseCoin_dashed_tag_rejects_all (s : string) :
  occurs "-" BANK_STR = true ->
  exists cnst,
    parseCoin BANK_STR s
    = Throw (Error ("Invalid identity string: " ++ cnst
                    ++ " received, but " ++ BANK_STR ++ " expected")).
Proof.
  intros Hb. unfold parseCoin.
  destruct (split "-" s) as [|cnst fields] eqn:E.
  - now apply split_not_nil in E.
  - exists cnst. simpl.
    destruct (String.eqb_spec cnst BANK_STR) as [->|_]; [|reflexivity].
    assert (occurs "-" BANK_STR = false)
      by (apply (hd_split_sep_free "-" s); now rewrite E).
    congruence.
Qed.

End ParseCoinMore.

(** ** More on acceptance *)

Section AcceptanceMore.

Variable COIN_RIS_LENGTH : nat.
Variable BANK_STR : string.
Variable verify : string -> string -> string -> string -> bool.
Variable hash : Buffer -> string.

Lemma strict_neq_false h expected :
  strict_neq (Some h) expected = false <-> expected = Some h.
Proof.
  destruct expected as [x|]; simpl; [|split; discriminate].
  rewrite negb_false_iff, String.eqb_eq. split; congruence.
Qed.

Lemma accept_loop_run coin isLeft lh rh remaining :
  forall i acc,
    (forall j, i <= j < i + remaining ->
       expected_hash isLeft lh rh j = Some (hash (getRis coin isLeft j))) ->
    accept_loop hash coin isLeft lh rh remaining i acc
    = (share_calls coin isLeft i remaining,
       Return (acc ++ map (getRis coin isLeft) (seq i remaining))).
Proof.
  induction remaining as [|remaining IH]; intros i acc Hm.
  - simpl. now rewrite app_nil_r.
  - rewrite accept_loop_step. cbv zeta.
    rewrite (proj2 (strict_neq_false _ _) (Hm i ltac:(lia))).
    rewrite IH by (intros j Hj; apply Hm; lia).
    simpl. now rewrite <- app_assoc.
Qed.

Lemma accept_loop_mismatch coin isLeft lh rh before :
  forall remaining i acc,
    before < remaining ->
    (forall j, i <= j < i + before ->
       expected_hash isLeft lh rh j = Some (hash (getRis coin isLeft j))) ->
    expected_hash isLeft lh rh (i + before)
      <> Some (hash (getRis coin isLeft (i + before))) ->
    accept_loop hash coin isLeft lh rh remaining i acc
    = (share_calls coin isLeft i (S before),
       Throw (Error "Hash mismatch, coin tampered.")).
Proof.
  induction before as [|before IH]; intros remaining i acc Hlt Hm Hbad;
    (destruct remaining as [|remaining]; [lia|]);
    rewrite accept_loop_step; cbv zeta.
  - rewrite Nat.add_0_r in Hbad.
    destruct (strict_neq _ _) eqn:E; [reflexivity|].
    apply strict_neq_false in E. contradiction.
  - rewrite (proj2 (strict_neq_false _ _) (Hm i ltac:(lia))).
    rewrite (IH remaining (S i)); [reflexivity | lia | |].
    + intros j Hj. apply Hm. lia.
    + now replace (S i + before) with (i + S before) by lia.
Qed.

Lemma accept_loop_returns_inv coin isLeft lh rh remaining :
  forall i acc shares,
    outcome (accept_loop hash coin isLeft lh rh remaining i acc) = Return shares ->
    forall j, i <= j < i + remaining ->
      expected_hash isLeft lh rh j = Some (hash (getRis coin isLeft j)).
Proof.
  induction remaining as [|remaining IH]; intros i acc shares H j Hj; [lia|].
  rewrite accept_loop_step in H. cbv zeta in H. unfold outcome in H. cbn [snd] in H.
  destruct (strict_neq _ _) eqn:E; [discriminate|].
  apply strict_neq_false in E.
  destruct (Nat.eq_dec j i) as [->|Hne]; [exact E|].
  apply (IH (S i) _ shares H). lia.
Qed.

Lemma accept_loop_outcome coin isLeft lh rh remaining :
  forall i acc,
    (exists shares,
       outcome (accept_loop hash coin isLeft lh rh remaining i acc) = Return shares)
    \/ outcome (accept_loop hash coin isLeft lh rh remaining i acc)
       = Throw (Error "Hash mismatch, coin tampered.").
Proof.
  induction remaining as [|remaining IH]; intros i acc.
  - left. eexists. reflexivity.
  - rewrite accept_loop_step. cbv zeta. unfold outcome. cbn [snd].
    destruct (strict_neq _ _); [now right|]. apply IH.
Qed.

(** The nested function, once the signature has verified and the
    canonical string has parsed, is the random draw followed by the loop. *)
Lemma acceptCoin_nested_verified coin r lh rh :
  verify (signature coin) (toString coin) (n coin) (e coin) = true ->
  parseCoin BANK_STR (toString coin) = Return (lh, rh) ->
  acceptCoin_nested COIN_RIS_LENGTH BANK_STR verify hash coin r
  = let run := accept_loop hash coin (Nat.eqb r 0) lh rh COIN_RIS_LENGTH 0 [] in
    (Verify (signature coin) (toString coin) (n coin) (e coin)
       :: RandInt 2 :: fst run, snd run).
Proof.
  intros Hv Hp. unfold acceptCoin_nested.
  rewrite bind_emit, Hv. cbn [negb]. rewrite bind_emit, Hp, bind_lift_return.
  reflexivity.
Qed.

(** X5: the acceptance procedure returns an array exactly when the
    signature verifies, the canonical string parses, and the hash of each
    of the first [COIN_RIS_LENGTH] shares of the drawn side equals the
    commitment listed at its index; nothing else makes it succeed. *)
Theorem acceptCoin_nested_accepts_iff coin r :
  (exists shares,
     outcome (acceptCoin_nested COIN_RIS_LENGTH BANK_STR verify hash coin r)
     = Return shares)
  <-> (verify (signature coin) (toString coin) (n coin) (e coin) = true
       /\ exists lh rh,
            parseCoin BANK_STR (toString coin) = Return (lh, rh)
            /\ forall i, i < COIN_RIS_LENGTH ->
                 expected_hash (Nat.eqb r 0) lh rh i
                 = Some (hash (getRis coin (Nat.eqb r 0) i))).
Proof.
  split.
  - intros [shares H].
    destruct (verify (signature coin) (toString coin) (n coin) (e coin)) eqn:Hv.
    + split; [reflexivity|].
      destruct (parseCoin BANK_STR (toString coin)) as [[lh rh]|err] eqn:Hp.
      * exists lh, rh. split; [reflexivity|]. intros i Hi.
        rewrite (acceptCoin_nested_verified coin r lh rh Hv Hp) in H.
        cbv zeta in H. unfold outcome in H. cbn [snd] in H.
        apply (accept_loop_returns_inv _ _ _ _ _ _ _ _ H). lia.
      * revert H. unfold acceptCoin_nested.
        rewrite bind_emit, Hv. cbn [negb]. rewrite bind_emit, Hp, bind_lift_throw.
        discriminate.
    + rewrite (acceptCoin_nested_invalid _ _ _ _ coin r Hv) in H. discriminate.
  - intros (Hv & lh & rh & Hp & Hm).
    exists (map (getRis coin (Nat.eqb r 0)) (seq 0 COIN_RIS_LENGTH)).
    now apply (acceptCoin_nested_succeeds _ _ _ _ coin r lh rh).
Qed.

(** X6: an accepting run makes exactly these calls, in this order: one
    verification, one random draw, then for each index from 0 to
    [COIN_RIS_LENGTH - 1] one fetch of the share of the drawn side and one
    hash of it; nothing is printed and the other side is never fetched. *)
Theorem acceptCoin_nested_accepting_run coin r lh rh :
  verify (signature coin) (toString coin) (n coin) (e coin) = true ->
  parseCoin BANK_STR (toString coin) = Return (lh, rh) ->
  (forall i, i < COIN_RIS_LENGTH ->
     expected_hash (Nat.eqb r 0) lh rh i
     = Some (hash (getRis coin (Nat.eqb r 0) i))) ->
  acceptCoin_nested COIN_RIS_LENGTH BANK_STR verify hash coin r
  = (Verify (signature coin) (toString coin) (n coin) (e coin)
       :: RandInt 2 :: share_calls coin (Nat.eqb r 0) 0 COIN_RIS_LENGTH,
     Return (map (getRis coin (Nat.eqb r 0)) (seq 0 COIN_RIS_LENGTH))).
Proof.
  intros Hv Hp Hm. rewrite (acceptCoin_nested_verified coin r lh rh Hv Hp).
  rewrite accept_loop_run by (intros j Hj; apply Hm; lia). reflexivity.
Qed.

(** X7: tampering is reported at the first bad index.  When the hash of
    the share at index [i] differs from its commitment (or the commitment
    is missing) and all earlier ones match, the procedure throws
    "Hash mismatch, coin tampered." having fetched and hashed the shares
    0..i only; no array is returned. *)
Theorem acceptCoin_nested_fails_fast coin r lh rh i :
  verify (signature coin) (toString coin) (n coin) (e coin) = true ->
  parseCoin BANK_STR (toString coin) = Return (lh, rh) ->
  i < COIN_RIS_LENGTH ->
  (forall j, j < i ->
     expected_hash (Nat.eqb r 0) lh rh j
     = Some (hash (getRis coin (Nat.eqb r 0) j))) ->
  expected_hash (Nat.eqb r 0) lh rh i
    <> Some (hash (getRis coin (Nat.eqb r 0) i)) ->
  acceptCoin_nested COIN_RIS_LENGTH BANK_STR verify hash coin r
  = (Verify (signature coin) (toString coin) (n coin) (e coin)
       :: RandInt 2 :: share_calls coin (Nat.eqb r 0) 0 (S i),
     Throw (Error "Hash mismatch, coin tampered.")).
Proof.
  intros Hv Hp Hi Hm Hbad.
  rewrite (acceptCoin_nested_verified coin r lh rh Hv Hp).
  rewrite (accept_loop_mismatch coin _ lh rh i); auto.
  intros j Hj. apply Hm. lia.
Qed.

(** X8: a coin whose signature verifies but whose canonical string does
    not parse fails with the parser's error, after the random draw and
    before any share is fetched. *)
Theorem acceptCoin_nested_unparsable coin r err :
  verify (signature coin) (toString coin) (n coin) (e coin) = true ->
  parseCoin BANK_STR (toString coin) = Throw err ->
  acceptCoin_nested COIN_RIS_LENGTH BANK_STR verify hash coin r
  = ([Verify (signature coin) (toString coin) (n coin) (e coin); RandInt 2],
     Throw err).
Proof.
  intros Hv Hp. unfold acceptCoin_nested.
  rewrite bind_emit, Hv. cbn [negb]. rewrite bind_emit, Hp. reflexivity.
Qed.

(** X9: a canonical string that lists fewer than [COIN_RIS_LENGTH]
    hashes for the drawn side is never accepted: the missing commitment
    counts as a mismatch. *)
Theorem acceptCoin_nested_short_list coin r lh rh :
  verify (signature coin) (toString coin) (n coin) (e coin) = true ->
  parseCoin BANK_STR (toString coin) = Return (lh, rh) ->
  length (if Nat.eqb r 0 then lh else rh) < COIN_RIS_LENGTH ->
  outcome (acceptCoin_nested COIN_RIS_LENGTH BANK_STR verify hash coin r)
  = Throw (Error "Hash mismatch, coin tampered.").
Proof.
  intros Hv Hp Hlen.
  rewrite (acceptCoin_nested_verified coin r lh rh Hv Hp).
  cbv zeta. unfold outcome. cbn [snd].
  destruct (accept_loop_outcome coin (Nat.eqb r 0) lh rh COIN_RIS_LENGTH 0 [])
    as [[shares H]|H]; [|exact H].
  pose proof (accept_loop_returns_inv _ _ _ _ _ _ _ _ H
                (length (if Nat.eqb r 0 then lh else rh)) ltac:(lia)) as E.
  unfold expected_hash in E.
  destruct (Nat.eqb r 0);
    (rewrite (proj2 (nth_error_None _ _)) in E; [discriminate | lia]).
Qed.

(** X10: the procedure never looks at the half it did not draw: two
    coins with the same signature, key and canonical string whose shares
    of the drawn side agree below [COIN_RIS_LENGTH] give the same run. *)
Theorem acceptCoin_nested_other_half_unread coin coin' r :
  signature coin = signature coin' -> n coin = n coin' -> e coin = e coin' ->
  toString coin = toString coin' ->
  (forall i, i < COIN_RIS_LENGTH ->
     getRis coin (Nat.eqb r 0) i = getRis coin' (Nat.eqb r 0) i) ->
  acceptCoin_nested COIN_RIS_LENGTH BANK_STR verify hash coin r
  = acceptCoin_nested COIN_RIS_LENGTH BANK_STR verify hash coin' r.
Proof.
  intros Hs Hn He Ht Hg.
  assert (L : forall lh rh remaining i acc, i + remaining <= COIN_RIS_LENGTH ->
            accept_loop hash coin (Nat.eqb r 0) lh rh remaining i acc
            = accept_loop hash coin' (Nat.eqb r 0) lh rh remaining i acc).
  { intros lh rh. induction remaining as [|remaining IH]; intros i acc Hle;
      [reflexivity|].
    rewrite !accept_loop_step. cbv zeta.
    rewrite (Hg i) by lia. rewrite (IH (S i)) by lia. reflexivity. }
  unfold acceptCoin_nested. rewrite Hs, Hn, He, Ht, !bind_emit.
  destruct (verify _ _ _ _); cbn [negb]; [|reflexivity].
  rewrite ?bind_emit.
  destruct (parseCoin BANK_STR (toString coin')) as [[lh rh]|err]; [|reflexivity].
  rewrite !bind_lift_return, (L lh rh COIN_RIS_LENGTH 0 []) by lia.
  reflexivity.
Qed.

End AcceptanceMore.

(** ** The XOR of two shares *)

Lemma lxor_low_byte_recovers (p t : Z) :
  (Z.lxor p (Z.lxor p t mod 256) mod 256 = t mod 256)%Z.
Proof.
  change 256%Z with (2 ^ 8)%Z. apply Z.bits_inj'. intros m Hm.
  destruct (Z.lt_ge_cases m 8) as [Hlow|Hhigh].
  - rewrite !Z.mod_pow2_bits_low by lia.
    rewrite Z.lxor_spec, Z.mod_pow2_bits_low by lia. rewrite Z.lxor_spec.
    destruct (Z.testbit p m), (Z.testbit t m); reflexivity.
  - rewrite !Z.mod_pow2_bits_high by lia. reflexivity.
Qed.

(** X11: the XOR buffer has the length of the first share, whatever the
    second is, and each of its elements is a byte. *)
Theorem byteWiseXor_buffer (part1 part2 : Buffer) :
  length (byteWiseXor part1 part2) = length part1
  /\ Forall byte (byteWiseXor part1 part2).
Proof.
  revert part2. induction part1 as [|a p1 IH]; intros part2; simpl.
  - split; [reflexivity | constructor].
  - destruct (IH (tl part2)) as [Hlen Hb]. split; [now rewrite Hlen|].
    constructor; [|exact Hb]. unfold byte. apply Z.mod_pos_bound. lia.
Qed.

(** X12: one-time pad.  XORing a pad with the XOR of that pad and a tag
    of the same length gives the tag back: the share pair a coin is built
    from decodes to the identity tag. *)
Theorem byteWiseXor_recovers (pad tag : Buffer) :
  length pad = length tag -> Forall byte tag ->
  byteWiseXor pad (byteWiseXor pad tag) = tag.
Proof.
  revert tag. induction pad as [|p pad IH]; intros [|t tag] Hlen Hb;
    try discriminate; [reflexivity|].
  inversion Hb as [|? ? Ht Hb']; subst. simpl.
  rewrite lxor_low_byte_recovers, IH by (auto; simpl in Hlen; lia).
  now rewrite Z.mod_small by exact Ht.
Qed.

(** On shares of equal length the XOR does not depend on the order of
    the two. *)
Lemma byteWiseXor_comm (part1 part2 : Buffer) :
  length part1 = length part2 ->
  byteWiseXor part1 part2 = byteWiseXor part2 part1.
Proof.
  revert part2. induction part1 as [|a p1 IH]; intros [|b p2] Hlen;
    try discriminate; [reflexivity|].
  simpl. rewrite (Z.lxor_comm a b), (IH p2) by (simpl in Hlen; lia).
  reflexivity.
Qed.

(** ** More on arbitration *)

Section ArbitrationMore.

Variable COIN_RIS_LENGTH : nat.
Variable IDENT_STR : string.
Variable bufferToString : Buffer -> string.

Lemma spender_line_inj a b : spender_line a = spender_line b -> a = b.
Proof. unfold spender_line. simpl. intros H. now injection H. Qed.

Lemma spender_line_not_merchant a : spender_line a <> merchant_line.
Proof. discriminate. Qed.

(** What [xorBuf] returns, when it returns. *)
Lemma xorBuf_returns ris1 ris2 i x :
  xorBuf (nth_error ris1 i) (nth_error ris2 i) = Return x ->
  exists p1, nth_error ris1 i = Some p1
             /\ x = byteWiseXor p1 (share_or_empty ris2 i).
Proof.
  unfold share_or_empty.
  destruct (nth_error ris1 i) as [p1|]; [|discriminate].
  destruct (nth_error ris2 i) as [p2|]; simpl.
  - destruct p1; intros [= <-]; eauto.
  - destruct p1; [intros [= <-]; eauto | discriminate].
Qed.

Lemma xorBuf_throws part1 part2 err :
  xorBuf part1 part2 = Throw err -> exists msg, err = TypeError msg.
Proof.
  destruct part1 as [[|a p1]|], part2 as [p2|]; simpl; intros [= <-]; eauto.
Qed.

Lemma cheater_loop_unfold ris1 ris2 remaining i :
  cheater_loop IDENT_STR bufferToString ris1 ris2 (S remaining) i
  = match xorBuf (nth_error ris1 i) (nth_error ris2 i) with
    | Throw err => ([], Throw err)
    | Return x =>
        if startsWith (bufferToString x) IDENT_STR
        then ([Log (spender_line
                      (show (nth_error (split ":" (bufferToString x)) 1)))],
              Return VUndefined)
        else cheater_loop IDENT_STR bufferToString ris1 ris2 remaining (S i)
    end.
Proof.
  cbn [cheater_loop].
  destruct (xorBuf (nth_error ris1 i) (nth_error ris2 i)) as [x|err].
  - rewrite bind_lift_return. destruct (startsWith _ _); reflexivity.
  - reflexivity.
Qed.

(** Every run of the loop ends in one of three ways. *)
Lemma cheater_loop_outcome ris1 ris2 remaining :
  forall i,
    let run := cheater_loop IDENT_STR bufferToString ris1 ris2 remaining i in
    (exists identity, run = ([Log (spender_line identity)], Return VUndefined))
    \/ run = ([Log merchant_line], Return VUndefined)
    \/ (exists msg, run = ([], Throw (TypeError msg))).
Proof.
  induction remaining as [|remaining IH]; intros i run; subst run.
  - right; left. reflexivity.
  - rewrite cheater_loop_unfold.
    destruct (xorBuf _ _) as [x|err] eqn:E.
    + destruct (startsWith _ _); [left; eauto | apply IH].
    + apply xorBuf_throws in E as [msg ->]. right; right. eauto.
Qed.

(** When the loop blames the merchant, every index it covers had a first
    share and no XOR text beginning with [IDENT_STR]. *)
Lemma cheater_loop_merchant_inv ris1 ris2 remaining :
  forall i,
    cheater_loop IDENT_STR bufferToString ris1 ris2 remaining i
    = ([Log merchant_line], Return VUndefined) ->
    forall j, i <= j < i + remaining ->
      exists p1, nth_error ris1 j = Some p1
        /\ startsWith (bufferToString (byteWiseXor p1 (share_or_empty ris2 j)))
             IDENT_STR = false.
Proof.
  induction remaining as [|remaining IH]; intros i H j Hj; [lia|].
  rewrite cheater_loop_unfold in H.
  destruct (xorBuf _ _) as [x|err] eqn:E; [|discriminate].
  destruct (startsWith (bufferToString x) IDENT_STR) eqn:Hs.
  - assert (Hl : spender_line
                   (show (nth_error (split ":" (bufferToString x)) 1))
                 = merchant_line) by congruence.
    now apply spender_line_not_merchant in Hl.
  - destruct (Nat.eq_dec j i) as [->|Hne].
    + apply xorBuf_returns in E as (p1 & H1 & ->). eauto.
    + apply (IH (S i) H). lia.
Qed.

(** When the loop names a spender, some index it covers is the first
    whose XOR text begins with [IDENT_STR], and the name is read off it. *)
Lemma cheater_loop_spender_inv ris1 ris2 identity remaining :
  forall i,
    cheater_loop IDENT_STR bufferToString ris1 ris2 remaining i
    = ([Log (spender_line identity)], Return VUndefined) ->
    exists k p1,
      i <= k < i + remaining
      /\ nth_error ris1 k = Some p1
      /\ startsWith (bufferToString (byteWiseXor p1 (share_or_empty ris2 k)))
           IDENT_STR = true
      /\ identity
         = show (nth_error
                   (split ":" (bufferToString
                                 (byteWiseXor p1 (share_or_empty ris2 k)))) 1)
      /\ forall j, i <= j < k ->
           exists q1, nth_error ris1 j = Some q1
             /\ startsWith
                  (bufferToString (byteWiseXor q1 (share_or_empty ris2 j)))
                  IDENT_STR = false.
Proof.
  induction remaining as [|remaining IH]; intros i H.
  - assert (Hl : spender_line identity = merchant_line)
      by (simpl in H; unfold merchant_line; congruence).
    now apply spender_line_not_merchant in Hl.
  - rewrite cheater_loop_unfold in H.
    destruct (xorBuf _ _) as [x|err] eqn:E; [|discriminate].
    apply xorBuf_returns in E as (p1 & H1 & ->).
    destruct (startsWith _ _) eqn:Hs.
    + assert (Hl : spender_line
                     (show (nth_error
                              (split ":" (bufferToString
                                            (byteWiseXor p1 (share_or_empty ris2 i)))) 1))
                   = spender_line identity) by congruence.
      apply spender_line_inj in Hl.
      exists i, p1. repeat split; auto; try lia.
    + destruct (IH (S i) H) as (k & q & Hk & Hq & Hsq & Hid & Hbefore).
      exists k, q. repeat split; auto; try lia.
      intros j Hj. destruct (Nat.eq_dec j i) as [->|Hne]; [eauto|].
      apply Hbefore. lia.
Qed.

Lemma Forall2_nth_error {A B} (R : A -> B -> Prop) l1 l2 :
  Forall2 R l1 l2 ->
  forall i,
    match nth_error l1 i, nth_error l2 i with
    | Some a, Some b => R a b
    | None, None => True
    | _, _ => False
    end.
Proof.
  induction 1 as [|a b l1 l2 Hab _ IH]; intros [|i]; simpl; auto.
  apply IH.
Qed.

Lemma cheater_loop_throws ris1 ris2 err before :
  forall remaining i,
    before < remaining ->
    (forall j, i <= j < i + before -> exists q1 q2,
       nth_error ris1 j = Some q1 /\ nth_error ris2 j = Some q2 /\
       startsWith (xor_text bufferToString q1 q2) IDENT_STR = false) ->
    xorBuf (nth_error ris1 (i + before)) (nth_error ris2 (i + before))
    = Throw err ->
    cheater_loop IDENT_STR bufferToString ris1 ris2 remaining i
    = ([], Throw err).
Proof.
  induction before as [|before IH]; intros remaining i Hlt Hskip Hthrow;
    (destruct remaining as [|remaining]; [lia|]).
  - rewrite Nat.add_0_r in Hthrow. rewrite cheater_loop_unfold, Hthrow.
    reflexivity.
  - destruct (Hskip i) as (q1 & q2 & Hq1 & Hq2 & Hq); [lia|].
    rewrite (cheater_loop_skip _ _ _ _ _ _ _ _ Hq1 Hq2 Hq).
    apply IH; [lia | |].
    + intros j Hj. apply Hskip. lia.
    + now replace (S i + before) with (i + S before) by lia.
Qed.

(** X13: every run of the arbitration procedure ends in exactly one of
    three ways: one spender line printed, the merchant line printed, or a
    [TypeError] with nothing printed.  It never prints two lines, never
    throws an error of its own, and returns [undefined] whenever it
    returns. *)
Theorem determineCheater_nested_outcomes (guid : string) ris1 ris2 :
  let run :=
    determineCheater_nested COIN_RIS_LENGTH IDENT_STR bufferToString
      guid ris1 ris2 in
  (exists identity, run = ([Log (spender_line identity)], Return VUndefined))
  \/ run = ([Log merchant_line], Return VUndefined)
  \/ (exists msg, run = ([], Throw (TypeError msg))).
Proof. apply cheater_loop_outcome. Qed.

(** X14: the merchant is blamed only after a full scan: then the first
    record has a share at every index below [COIN_RIS_LENGTH], and at no
    index does the XOR text (a missing second share read as empty) begin
    with [IDENT_STR]. *)
Theorem determineCheater_nested_merchant_only_if (guid : string) ris1 ris2 :
  determineCheater_nested COIN_RIS_LENGTH IDENT_STR bufferToString
    guid ris1 ris2
  = ([Log merchant_line], Return VUndefined) ->
  forall i, i < COIN_RIS_LENGTH ->
    exists p1, nth_error ris1 i = Some p1
      /\ startsWith (xor_text bufferToString p1 (share_or_empty ris2 i))
           IDENT_STR = false.
Proof.
  intros H i Hi.
  apply (cheater_loop_merchant_inv ris1 ris2 COIN_RIS_LENGTH 0 H). lia.
Qed.

(** X15: a spender is named only on evidence: some index below
    [COIN_RIS_LENGTH] is the first whose XOR text begins with [IDENT_STR],
    and the name printed is the text between the first and the second [:]
    of that text ([undefined] when it has no [:]). *)
Theorem determineCheater_nested_spender_only_if (guid : string) ris1 ris2
    (identity : string) :
  determineCheater_nested COIN_RIS_LENGTH IDENT_STR bufferToString
    guid ris1 ris2
  = ([Log (spender_line identity)], Return VUndefined) ->
  exists i p1,
    i < COIN_RIS_LENGTH
    /\ nth_error ris1 i = Some p1
    /\ startsWith (xor_text bufferToString p1 (share_or_empty ris2 i))
         IDENT_STR = true
    /\ identity
       = show (nth_error
                 (split ":" (xor_text bufferToString p1 (share_or_empty ris2 i)))
                 1)
    /\ forall j, j < i ->
         exists q1, nth_error ris1 j = Some q1
           /\ startsWith (xor_text bufferToString q1 (share_or_empty ris2 j))
                IDENT_STR = false.
Proof.
  intros H.
  destruct (cheater_loop_spender_inv ris1 ris2 identity COIN_RIS_LENGTH 0 H)
    as (k & p1 & Hk & H1 & Hs & Hid & Hbefore).
  exists k, p1. repeat split; auto; try lia.
  intros j Hj. apply Hbefore. lia.
Qed.

(** X16: a first record that runs out of shares before
    [COIN_RIS_LENGTH], with no match at the indices before, makes the
    procedure throw a [TypeError]; no verdict is printed. *)
Theorem determineCheater_nested_missing_share (guid : string) ris1 ris2 i :
  i < COIN_RIS_LENGTH ->
  (forall j, j < i -> exists q1 q2,
     nth_error ris1 j = Some q1 /\ nth_error ris2 j = Some q2 /\
     startsWith (xor_text bufferToString q1 q2) IDENT_STR = false) ->
  nth_error ris1 i = None ->
  determineCheater_nested COIN_RIS_LENGTH IDENT_STR bufferToString
    guid ris1 ris2
  = ([], Throw (TypeError
                  "Cannot read properties of undefined (reading 'length')")).
Proof.
  intros Hi Hskip Hnone. unfold determineCheater_nested.
  apply (cheater_loop_throws ris1 ris2 _ i); auto.
  - intros j Hj. apply Hskip. lia.
  - simpl. now rewrite Hnone.
Qed.

(** X21: likewise when it is the second record that runs out: at an
    index where the first record has a non-empty share and the second has
    none, reading the missing share throws a [TypeError] and no verdict is
    printed. *)
Theorem determineCheater_nested_missing_second_share (guid : string)
    ris1 ris2 i a p1 :
  i < COIN_RIS_LENGTH ->
  (forall j, j < i -> exists q1 q2,
     nth_error ris1 j = Some q1 /\ nth_error ris2 j = Some q2 /\
     startsWith (xor_text bufferToString q1 q2) IDENT_STR = false) ->
  nth_error ris1 i = Some (a :: p1) ->
  nth_error ris2 i = None ->
  determineCheater_nested COIN_RIS_LENGTH IDENT_STR bufferToString
    guid ris1 ris2
  = ([], Throw (TypeError
                  "Cannot read properties of undefined (reading '0')")).
Proof.
  intros Hi Hskip H1 H2. unfold determineCheater_nested.
  apply (cheater_loop_throws ris1 ris2 _ i); auto.
  - intros j Hj. apply Hskip. lia.
  - simpl. now rewrite H1, H2.
Qed.

(** X17: when the two records have the same number of shares and the
    shares at each index have the same length, the verdict does not depend
    on the order in which the records are given. *)
Theorem determineCheater_nested_symmetric (guid : string) ris1 ris2 :
  Forall2 (fun p q : Buffer => length p = length q) ris1 ris2 ->
  determineCheater_nested COIN_RIS_LENGTH IDENT_STR bufferToString
    guid ris1 ris2
  = determineCheater_nested COIN_RIS_LENGTH IDENT_STR bufferToString
      guid ris2 ris1.
Proof.
  intros HF. unfold determineCheater_nested.
  generalize 0 as i. induction COIN_RIS_LENGTH as [|remaining IH]; intros i;
    [reflexivity|].
  rewrite !cheater_loop_unfold, IH.
  pose proof (Forall2_nth_error _ _ _ HF i) as Hi.
  destruct (nth_error ris1 i) as [p|], (nth_error ris2 i) as [q|];
    try contradiction; [|reflexivity].
  now rewrite !xorBuf_Some, (byteWiseXor_comm p q Hi).
Qed.

(** X18: which name is printed.  At the first index whose XOR text
    begins with [IDENT_STR] (itself without a [:]): a text
    [IDENT_STR:a:rest] prints [a], so an identity that holds a [:] is cut
    at it; a text with no [:] at all prints [undefined]. *)
Theorem determineCheater_nested_identity_field (guid : string)
    ris1 ris2 i p1 p2 :
  i < COIN_RIS_LENGTH ->
  (forall j, j < i -> exists q1 q2,
     nth_error ris1 j = Some q1 /\ nth_error ris2 j = Some q2 /\
     startsWith (xor_text bufferToString q1 q2) IDENT_STR = false) ->
  nth_error ris1 i = Some p1 -> nth_error ris2 i = Some p2 ->
  occurs ":" IDENT_STR = false ->
  (forall a rest,
     occurs ":" a = false ->
     xor_text bufferToString p1 p2
     = (IDENT_STR ++ String ":" (a ++ String ":" rest))%string ->
     determineCheater_nested COIN_RIS_LENGTH IDENT_STR bufferToString
       guid ris1 ris2
     = ([Log (spender_line a)], Return VUndefined))
  /\ (forall rest,
        occurs ":" rest = false ->
        xor_text bufferToString p1 p2 = (IDENT_STR ++ rest)%string ->
        determineCheater_nested COIN_RIS_LENGTH IDENT_STR bufferToString
          guid ris1 ris2
        = ([Log (spender_line "undefined")], Return VUndefined)).
Proof.
  intros Hi Hskip H1 H2 Ht.
  assert (Hrun : startsWith (xor_text bufferToString p1 p2) IDENT_STR = true ->
            determineCheater_nested COIN_RIS_LENGTH IDENT_STR bufferToString
              guid ris1 ris2
            = ([Log (spender_line
                       (show (nth_error
                                (split ":" (xor_text bufferToString p1 p2)) 1)))],
               Return VUndefined)).
  { intros Hs. unfold determineCheater_nested.
    apply (cheater_loop_first_match _ _ ris1 ris2 p1 p2 i); auto.
    intros j Hj. apply Hskip. lia. }
  split.
  - intros a rest Ha E. rewrite Hrun by (rewrite E; apply startsWith_app).
    rewrite E, (split_app _ _ _ Ht), (split_app _ _ _ Ha). reflexivity.
  - intros rest Hr E. rewrite Hrun by (rewrite E; apply startsWith_app).
    rewrite E, split_free by (now rewrite occurs_app, Ht, Hr). reflexivity.
Qed.

(** A record arbitrated against itself, by the loop. *)
Lemma cheater_loop_same_record (ris : list Buffer) :
  length ris = COIN_RIS_LENGTH ->
  (forall m, startsWith (bufferToString (repeat 0%Z m)) IDENT_STR = false) ->
  cheater_loop IDENT_STR bufferToString ris ris COIN_RIS_LENGTH 0
  = ([Log merchant_line], Return VUndefined).
Proof.
  intros Hlen Hz. apply cheater_loop_no_match.
  intros j Hj. destruct (nth_error ris j) as [p|] eqn:E.
  - exists p, p. repeat split.
    unfold xor_text. rewrite byteWiseXor_self. apply Hz.
  - apply nth_error_None in E. lia.
Qed.

End ArbitrationMore.

(** ** Acceptance followed by arbitration *)

Section Protocol.

Variable COIN_RIS_LENGTH : nat.
Variable IDENT_STR : string.
Variable BANK_STR : string.
Variable verify : string -> string -> string -> string -> bool.
Variable hash : Buffer -> string.
Variable bufferToString : Buffer -> string.

Lemma acceptCoin_nested_result coin r shares :
  outcome (acceptCoin_nested COIN_RIS_LENGTH BANK_STR verify hash coin r)
  = Return shares ->
  shares = map (getRis coin (Nat.eqb r 0)) (seq 0 COIN_RIS_LENGTH).
Proof.
  unfold acceptCoin_nested. rewrite bind_emit. unfold outcome. cbn [snd].
  destruct (verify _ _ _ _); cbn [negb]; [|discriminate].
  rewrite bind_emit. cbn [snd].
  destruct (parseCoin BANK_STR (toString coin)) as [[lh rh]|err].
  - rewrite bind_lift_return. intros H.
    now apply accept_loop_returns in H.
  - rewrite bind_lift_throw. discriminate.
Qed.


(** X20: a double spend goes unnoticed when both merchants draw the same
    side.  Two successful acceptances of one coin with the same side
    return the same array, and the arbitration procedure on them prints
    the merchant line (given that the text of an all-zero buffer does not
    begin with [IDENT_STR]). *)
Theorem double_spend_same_side_blames_merchant (guid' : string)
    coin r1 r2 ris1 ris2 :
  Nat.eqb r1 0 = Nat.eqb r2 0 ->
  (forall m, startsWith (bufferToString (repeat 0%Z m)) IDENT_STR = false) ->
  outcome (acceptCoin_nested COIN_RIS_LENGTH BANK_STR verify hash coin r1)
  = Return ris1 ->
  outcome (acceptCoin_nested COIN_RIS_LENGTH BANK_STR verify hash coin r2)
  = Return ris2 ->
  ris1 = ris2
  /\ determineCheater_nested COIN_RIS_LENGTH IDENT_STR bufferToString
       guid' ris1 ris2
     = ([Log merchant_line], Return VUndefined).
Proof.
  intros Hr Hz H1 H2.
  apply acceptCoin_nested_result in H1, H2. rewrite <- Hr in H2.
  subst ris1 ris2. split; [reflexivity|].
  unfold determineCheater_nested. apply cheater_loop_same_record; [|exact Hz].
  now rewrite length_map, length_seq.
Qed.

End Protocol.

(** ** The further properties at the concrete instance *)

Lemma parseCoin_round_trip_witness :
  Demo.parseCoin "BANK-20-4f2a9c-ha,hb-hc"
  = Return (["ha"; "hb"], ["hc"]).
Proof.
  apply (parseCoin_round_trip Demo.BANK_STR "20" "4f2a9c" ["ha"; "hb"] ["hc"]);
    try reflexivity; try discriminate;
    repeat constructor.
Defined.

Lemma parseCoin_returns_entries_witness :
  Demo.parseCoin "BANK-20-4f2a9c--hc"
  = Return ([""], ["hc"])
  /\ ([""] <> [] /\ ["hc"] <> [] /\ Forall entry [""] /\ Forall entry ["hc"]).
Proof.
  split; [reflexivity|].
  apply (parseCoin_returns_entries Demo.BANK_STR "BANK-20-4f2a9c--hc").
  reflexivity.
Defined.

Lemma parseCoin_missing_field_witness :
  hd_error (split "-" "BANK-20-4f2a9c-ha,hb") = Some Demo.BANK_STR
  /\ length (split "-" "BANK-20-4f2a9c-ha,hb") < 5
  /\ Demo.parseCoin "BANK-20-4f2a9c-ha,hb"
     = Throw (TypeError "Cannot read properties of undefined (reading 'split')").
Proof.
  split; [reflexivity|]. split; [simpl; lia|].
  apply (parseCoin_missing_field Demo.BANK_STR "BANK-20-4f2a9c-ha,hb");
    [reflexivity | simpl; lia].
Defined.

Lemma parseCoin_dashed_tag_rejects_all_witness :
  occurs "-" "E-BANK" = true
  /\ exists cnst,
       parseCoin "E-BANK" "E-BANK-20-4f2a9c-ha-hb"
       = Throw (Error ("Invalid identity string: " ++ cnst
                       ++ " received, but " ++ "E-BANK" ++ " expected")).
Proof.
  split; [reflexivity|].
  apply (parseCoin_dashed_tag_rejects_all "E-BANK" "E-BANK-20-4f2a9c-ha-hb").
  reflexivity.
Defined.

Lemma demo_commitments_match r :
  forall i, i < Demo.COIN_RIS_LENGTH ->
    expected_hash (Nat.eqb r 0)
      (map Demo.hash Demo.left_half) (map Demo.hash Demo.right_half) i
    = Some (Demo.hash (getRis Demo.coin (Nat.eqb r 0) i)).
Proof.
  intros i Hi. unfold Demo.COIN_RIS_LENGTH in Hi.
  destruct (Nat.eqb r 0); destruct i as [|[|[|i]]]; try reflexivity; lia.
Defined.

Lemma acceptCoin_nested_accepting_run_witness :
  Demo.verify (signature Demo.coin) (toString Demo.coin)
    (n Demo.coin) (e Demo.coin) = true
  /\ Demo.parseCoin (toString Demo.coin)
     = Return (map Demo.hash Demo.left_half, map Demo.hash Demo.right_half)
  /\ Demo.acceptCoin_nested Demo.coin 1
     = (Verify (signature Demo.coin) (toString Demo.coin)
          (n Demo.coin) (e Demo.coin)
        :: RandInt 2 :: share_calls Demo.coin false 0 3,
        Return Demo.right_half).
Proof.
  split; [reflexivity|]. split; [reflexivity|].
  apply (acceptCoin_nested_accepting_run
           Demo.COIN_RIS_LENGTH Demo.BANK_STR Demo.verify Demo.hash
           Demo.coin 1 (map Demo.hash Demo.left_half)
           (map Demo.hash Demo.right_half));
    [reflexivity | reflexivity | exact (demo_commitments_match 1)].
Defined.

Lemma acceptCoin_nested_fails_fast_witness :
  Demo.verify (signature Cases.tampered) (toString Cases.tampered)
    (n Cases.tampered) (e Cases.tampered) = true
  /\ expected_hash true
       (map Demo.hash Demo.left_half) (map Demo.hash Demo.right_half) 1
     <> Some (Demo.hash (getRis Cases.tampered true 1))
  /\ Demo.acceptCoin_nested Cases.tampered 0
     = (Verify (signature Cases.tampered) (toString Cases.tampered)
          (n Cases.tampered) (e Cases.tampered)
        :: RandInt 2 :: share_calls Cases.tampered true 0 2,
        Throw (Error "Hash mismatch, coin tampered.")).
Proof.
  assert (Hbad : expected_hash true
       (map Demo.hash Demo.left_half) (map Demo.hash Demo.right_half) 1
     <> Some (Demo.hash (getRis Cases.tampered true 1))) by discriminate.
  split; [reflexivity|]. split; [exact Hbad|].
  apply (acceptCoin_nested_fails_fast
           Demo.COIN_RIS_LENGTH Demo.BANK_STR Demo.verify Demo.hash
           Cases.tampered 0 (map Demo.hash Demo.left_half)
           (map Demo.hash Demo.right_half) 1);
    [reflexivity | reflexivity | unfold Demo.COIN_RIS_LENGTH; lia | | exact Hbad].
  intros j Hj. destruct j as [|j]; [reflexivity | lia].
Defined.

Lemma acceptCoin_nested_unparsable_witness :
  Demo.verify (signature Cases.truncated) (toString Cases.truncated)
    (n Cases.truncated) (e Cases.truncated) = true
  /\ Demo.parseCoin (toString Cases.truncated)
     = Throw (TypeError "Cannot read properties of undefined (reading 'split')")
  /\ Demo.acceptCoin_nested Cases.truncated 0
     = ([Verify (signature Cases.truncated) (toString Cases.truncated)
           (n Cases.truncated) (e Cases.truncated); RandInt 2],
        Throw (TypeError "Cannot read properties of undefined (reading 'split')")).
Proof.
  split; [reflexivity|]. split; [reflexivity|].
  apply (acceptCoin_nested_unparsable
           Demo.COIN_RIS_LENGTH Demo.BANK_STR Demo.verify Demo.hash
           Cases.truncated 0); reflexivity.
Defined.

Lemma acceptCoin_nested_short_list_witness :
  Demo.verify (signature Cases.underlisted) (toString Cases.underlisted)
    (n Cases.underlisted) (e Cases.underlisted) = true
  /\ Demo.parseCoin (toString Cases.underlisted)
     = Return (["hbcdefghijkl"; "hmnopqrstuvw"], ["husswdiywsbg"; "hrvxnqrlxvol"])
  /\ outcome (Demo.acceptCoin_nested Cases.underlisted 0)
     = Throw (Error "Hash mismatch, coin tampered.").
Proof.
  split; [reflexivity|]. split; [reflexivity|].
  apply (acceptCoin_nested_short_list
           Demo.COIN_RIS_LENGTH Demo.BANK_STR Demo.verify Demo.hash
           Cases.underlisted 0
           ["hbcdefghijkl"; "hmnopqrstuvw"] ["husswdiywsbg"; "hrvxnqrlxvol"]);
    [reflexivity | reflexivity | simpl; unfold Demo.COIN_RIS_LENGTH; lia].
Defined.

Lemma acceptCoin_nested_other_half_unread_witness :
  getRis Demo.coin true 1 <> getRis Cases.tampered true 1
  /\ Demo.acceptCoin_nested Demo.coin 1 = Demo.acceptCoin_nested Cases.tampered 1.
Proof.
  split; [discriminate|].
  apply (acceptCoin_nested_other_half_unread
           Demo.COIN_RIS_LENGTH Demo.BANK_STR Demo.verify Demo.hash
           Demo.coin Cases.tampered 1); try reflexivity.
Defined.

Lemma byteWiseXor_recovers_witness :
  byteWiseXor (getRis Demo.coin true 0) (getRis Demo.coin false 0)
  = Demo.bufferFrom "IDENT:alice".
Proof.
  apply (byteWiseXor_recovers
           [1; 2; 3; 4; 5; 6; 7; 8; 9; 10; 11]%Z (Demo.bufferFrom "IDENT:alice"));
    [reflexivity|].
  repeat constructor; unfold byte; simpl; lia.
Defined.

Lemma determineCheater_nested_merchant_only_if_witness :
  Demo.determineCheater_nested (guid Demo.coin)
    Demo.damaged_left_half Demo.left_half
  = ([Log merchant_line], Return VUndefined)
  /\ exists p1,
       nth_error Demo.damaged_left_half 0 = Some p1
       /\ startsWith (Demo.xor_text p1 (share_or_empty Demo.left_half 0))
            Demo.IDENT_STR = false.
Proof.
  split; [reflexivity|].
  apply (determineCheater_nested_merchant_only_if
           Demo.COIN_RIS_LENGTH Demo.IDENT_STR Demo.bufferToString
           (guid Demo.coin) Demo.damaged_left_half Demo.left_half);
    [reflexivity | unfold Demo.COIN_RIS_LENGTH; lia].
Defined.

Lemma determineCheater_nested_spender_only_if_witness :
  Demo.determineCheater_nested (guid Demo.coin)
    Demo.damaged_left_half Demo.right_half
  = ([Log (spender_line "alice")], Return VUndefined)
  /\ exists i p1,
       i < Demo.COIN_RIS_LENGTH
       /\ nth_error Demo.damaged_left_half i = Some p1
       /\ startsWith (Demo.xor_text p1 (share_or_empty Demo.right_half i))
            Demo.IDENT_STR = true
       /\ "alice"
          = show (nth_error
                    (split ":" (Demo.xor_text p1 (share_or_empty Demo.right_half i)))
                    1)
       /\ forall j, j < i ->
            exists q1, nth_error Demo.damaged_left_half j = Some q1
              /\ startsWith (Demo.xor_text q1 (share_or_empty Demo.right_half j))
                   Demo.IDENT_STR = false.
Proof.
  split; [reflexivity|].
  apply (determineCheater_nested_spender_only_if
           Demo.COIN_RIS_LENGTH Demo.IDENT_STR Demo.bufferToString
           (guid Demo.coin) Demo.damaged_left_half Demo.right_half "alice").
  reflexivity.
Defined.

Lemma determineCheater_nested_missing_share_witness :
  nth_error Cases.short_half 2 = None
  /\ Demo.determineCheater_nested (guid Demo.coin)
       Cases.short_half Demo.left_half
     = ([], Throw (TypeError
                     "Cannot read properties of undefined (reading 'length')")).
Proof.
  split; [reflexivity|].
  apply (determineCheater_nested_missing_share
           Demo.COIN_RIS_LENGTH Demo.IDENT_STR Demo.bufferToString
           (guid Demo.coin) Cases.short_half Demo.left_half 2);
    [unfold Demo.COIN_RIS_LENGTH; lia | | reflexivity].
  intros j Hj. destruct j as [|[|j]]; [| |lia];
    (eexists; eexists; repeat split; reflexivity).
Defined.

Lemma determineCheater_nested_symmetric_witness :
  Forall2 (fun p q : Buffer => length p = length q)
    Demo.right_half Demo.left_half
  /\ Demo.determineCheater_nested (guid Demo.coin) Demo.right_half Demo.left_half
     = Demo.determineCheater_nested (guid Demo.coin) Demo.left_half Demo.right_half.
Proof.
  assert (H : Forall2 (fun p q : Buffer => length p = length q)
                Demo.right_half Demo.left_half)
    by (repeat constructor).
  split; [exact H|].
  exact (determineCheater_nested_symmetric
           Demo.COIN_RIS_LENGTH Demo.IDENT_STR Demo.bufferToString
           (guid Demo.coin) Demo.right_half Demo.left_half H).
Defined.

Lemma determineCheater_nested_identity_field_witness :
  Demo.xor_text (getRis Demo.coin true 0) (nth 0 Cases.two_colons [])
  = "IDENT:al:ce"
  /\ Demo.determineCheater_nested (guid Demo.coin)
       Demo.left_half Cases.two_colons
     = ([Log (spender_line "al")], Return VUndefined).
Proof.
  split; [reflexivity|].
  apply (proj1 (determineCheater_nested_identity_field
                  Demo.COIN_RIS_LENGTH Demo.IDENT_STR Demo.bufferToString
                  (guid Demo.coin) Demo.left_half Cases.two_colons 0
                  (getRis Demo.coin true 0) (nth 0 Cases.two_colons [])
                  ltac:(unfold Demo.COIN_RIS_LENGTH; lia)
                  ltac:(intros j Hj; lia)
                  eq_refl eq_refl eq_refl) "al" "ce");
    reflexivity.
Defined.


Lemma double_spend_same_side_blames_merchant_witness :
  outcome (Demo.acceptCoin_nested Demo.coin 1) = Return Demo.right_half
  /\ outcome (Demo.acceptCoin_nested Demo.coin 5) = Return Demo.right_half
  /\ Demo.determineCheater_nested (guid Demo.coin) Demo.right_half Demo.right_half
     = ([Log merchant_line], Return VUndefined).
Proof.
  split; [reflexivity|]. split; [reflexivity|].
  apply (double_spend_same_side_blames_merchant
           Demo.COIN_RIS_LENGTH Demo.IDENT_STR Demo.BANK_STR
           Demo.verify Demo.hash Demo.bufferToString
           (guid Demo.coin) Demo.coin 1 5 Demo.right_half Demo.right_half);
    try reflexivity.
  intros [|m]; reflexivity.
Defined.

Lemma determineCheater_nested_missing_second_share_witness :
  nth_error Demo.left_half 2 = Some (getRis Demo.coin true 2)
  /\ nth_error Cases.short_half 2 = None
  /\ Demo.determineCheater_nested (guid Demo.coin)
       Demo.left_half Cases.short_half
     = ([], Throw (TypeError
                     "Cannot read properties of undefined (reading '0')")).
Proof.
  split; [reflexivity|]. split; [reflexivity|].
  apply (determineCheater_nested_missing_second_share
           Demo.COIN_RIS_LENGTH Demo.IDENT_STR Demo.bufferToString
           (guid Demo.coin) Demo.left_half Cases.short_half 2
           23%Z [24; 25; 26; 27; 28; 29; 30; 31; 32; 33]%Z);
    [unfold Demo.COIN_RIS_LENGTH; lia | | reflexivity | reflexivity].
  intros j Hj. destruct j as [|[|j]]; [| |lia];
    (eexists; eexists; repeat split; reflexivity).
Defined.
